(** * The Elasticsearch CRUD service ([api/service/elk.py])

    A shallow embedding of the service functions of [elk.py] and the
    properties of its natural-language specification.

    The functions of [elk.py] talk to an Elasticsearch cluster through
    the client object [_es], read a file and print diagnostics.  They are
    embedded as computations in a small monad that threads the state of
    the outside world (cluster and file system), records every call made
    to it, and propagates Python exceptions. *)

From Stdlib Require Import ZArith String Ascii List Lia DecimalString.
From stdpp Require Import base option list strings gmap.

Local Open Scope Z_scope.
Local Open Scope string_scope.
Local Open Scope list_scope.
Set Warnings "-register-all".

(** ** Python strings *)

Module Py.

(** A [str] is a [string]; its characters are the code points below 256. *)

Definition LF : string := String (ascii_of_nat 10) EmptyString.

(** [sub in s] on two strings: [sub] occurs in [s] at some position. *)
Fixpoint str_in (sub s : string) : bool :=
  String.prefix sub s ||
  match s with
  | EmptyString => false
  | String _ s' => str_in sub s'
  end.

(** [s.startswith(p)] *)
Definition startswith (s p : string) : bool := String.prefix p s.

(** [c.isspace()] for a character below 256: the ASCII white space
    (tab, line feed, vertical tab, form feed, carriage return, space), the
    four separators 0x1c to 0x1f, next line 0x85 and no-break space 0xa0. *)
Definition isspace (c : ascii) : bool :=
  let n := nat_of_ascii c in
  ((9 <=? n) && (n <=? 13) || (28 <=? n) && (n <=? 32)
   || (n =? 133) || (n =? 160))%nat.

(** [s.split()] with no separator: the maximal runs of characters that
    are not white space, in order.  [cur] is the run being read. *)
Fixpoint split_from (cur : string) (s : string) : list string :=
  match s with
  | EmptyString => if decide (cur = "") then [] else [cur]
  | String c s' =>
      if isspace c
      then (if decide (cur = "") then [] else [cur]) ++ split_from "" s'
      else split_from (cur +:+ String c EmptyString) s'
  end.

Definition split (s : string) : list string := split_from "" s.

(** [len(l)] *)
Definition len {A} (l : list A) : Z := Z.of_nat (length l).

(** [str(n)] for an [int], as an f-string formats it. *)
Definition str_of_int (n : Z) : string := NilZero.string_of_int (Z.to_int n).

End Py.

(** ** Status codes ([api/utils/status.py]) *)

Module sc.

(** Modelled from the spec: [api/utils/status.py] is not among the sources;
    the success status has the HTTP code its name carries. *)
Definition HTTP_200_OK : Z := 200.

(** Modelled from the spec: [api/utils/status.py] is not among the sources;
    the already-reported status has the HTTP code its name carries. *)
Definition HTTP_208_ALREADY_REPORTED : Z := 208.

(** Modelled from the spec: [api/utils/status.py] is not among the sources;
    the bad-request status has the HTTP code its name carries. *)
Definition HTTP_400_BAD_REQUEST : Z := 400.

(** Modelled from the spec: [api/utils/status.py] is not among the sources;
    the not-found status has the HTTP code its name carries. *)
Definition HTTP_404_NOT_FOUND : Z := 404.

(** Modelled from the spec: [api/utils/status.py] is not among the sources;
    the method-not-allowed status has the HTTP code its name carries. *)
Definition HTTP_405_METHOD_NOT_ALLOWED : Z := 405.

(** Modelled from the spec: [api/utils/status.py] is not among the sources;
    the not-acceptable status of the capacity failure has the HTTP code its
    name carries. *)
Definition HTTP_406_NOT_ACCEPTABLE : Z := 406.

(** Modelled from the spec: [api/utils/status.py] is not among the sources;
    the request-timeout status has the HTTP code its name carries. *)
Definition HTTP_408_REQUEST_TIMEOUT : Z := 408.

End sc.

(** ** Configuration ([api/utils/const.py]) *)

(** [api/utils/const.py] is not among the sources: its constants are
    parameters of the development.  [SPECIAL_CHARS] is given by the items
    that iterating over it yields, in order (one-character strings when it
    is a [str]). *)
Class Const := {
  RECORDS : Z;
  SPECIAL_CHARS : list string;
  REQUEST_TIMEOUT : Z;
  INDEX_NAME_PREFIX : string;
  MAX_IDX_LIM : Z
}.

(** ** Data *)

(** Python values held by documents and settings ([float] is left out: no
    function of the service inspects a value). *)
Inductive pyval :=
| PNone
| PBool (b : bool)
| PInt (n : Z)
| PStr (s : string)
| PList (l : list pyval)
| PDict (d : list (string * pyval)).

(** A document body: a [dict] from field names to values. *)
Abbreviation doc := (gmap string pyval).

(** [d.get(k)]: the value at [k], or [None] when [k] is absent. *)
Definition dict_get (d : doc) (k : string) : pyval := default PNone (d !! k).

(** One element of [res["hits"]["hits"]], with the document body the
    engine returns under [_source]. *)
Record hit := { _id : string; _source : doc }.

(** The queries the service builds:
    [{"match": {field: value}}],
    [{"range": {field: {"gte": gte, "lte": lte}}}] and
    [{"query_string": {"query": q}}]. *)
Inductive query_dsl :=
| Match (field value : string)
| Range (field gte lte : string)
| QueryString (q : string).

(** The keyword arguments of [_es.search].  [body = Some q] stands for
    [body={"query": q}]; an argument that is not passed is [None]. *)
Record search_kwargs := {
  index : string;
  body : option query_dsl;
  query : option query_dsl;
  size : option Z;
  request_timeout : option Z
}.

(** [csv.DictReader(_file)]: a lazy reader over the text of the opened file;
    its rows are only read by the consumer. *)
Inductive DictReader := csv_DictReader (_file : string).

(** Exceptions: the client's [ConnectionTimeout], and every other subclass
    of [Exception]; [desc] is what [str(ex)] gives. *)
Inductive exn :=
| ConnectionTimeout (desc : string)
| OtherException (desc : string).

Definition str_of_exn (ex : exn) : string :=
  match ex with ConnectionTimeout d | OtherException d => d end.

(** The calls made on the client [_es]. *)
Inductive call :=
| CatIndices (index h s : string)
| IndicesExists (index : string)
| IndicesCreate (index : string) (settings : pyval)
| IndicesDelete (index : string)
| Index (index : string) (document : doc) (id : string) (error_trace : bool) (timeout : string)
| Search (kw : search_kwargs)
| Bulk (actions : DictReader) (index : string).

(** What a service function does to the outside, in order. *)
Inductive event :=
| Engine (c : call)
| Open (file mode encoding : string)
| Close (file : string)
| Print (text : string).

(** What a function returns: the [{message, status}] envelope, a list of
    document bodies, a list of field values, or one document body. *)
Inductive retval :=
| Envelope (message : string) (status : Z)
| Records (record_list : list doc)
| Fields (field_list : list pyval)
| Source (source : doc).

(** ** The outside world and the monad of service computations *)

Inductive outcome (A : Type) :=
| Returned (a : A)
| Raised (ex : exn).
Arguments Returned {A} a.
Arguments Raised {A} ex.

(** The cluster behind [_es] and the file system: each call answers with a
    value or raises, and moves the world to a new state.  [module_file] is
    the path [elk.py] was loaded from ([f_info.filename]). *)
Class World (W : Type) := {
  cat_indices : string -> string -> string -> W -> outcome string * W;
  indices_exists : string -> W -> outcome bool * W;
  indices_create : string -> pyval -> W -> outcome unit * W;
  indices_delete : string -> W -> outcome unit * W;
  index_document : string -> doc -> string -> bool -> string -> W -> outcome unit * W;
  search : search_kwargs -> W -> outcome (list hit) * W;
  bulk : DictReader -> string -> W -> outcome unit * W;
  open_file : string -> string -> string -> W -> outcome string * W;
  module_file : string
}.

(** A computation: from a state of the world to the events it causes, its
    outcome and the new state. *)
Definition M (W A : Type) : Type := W -> list event * outcome A * W.

Definition ret {W A} (a : A) : M W A := fun w => ([], Returned a, w).

Definition bind {W A B} (m : M W A) (k : A -> M W B) : M W B :=
  fun w =>
    match m w with
    | (t1, Returned a, w1) =>
        match k a w1 with (t2, o, w2) => (t1 ++ t2, o, w2) end
    | (t1, Raised ex, w1) => (t1, Raised ex, w1)
    end.

(** [try: m  except ... as ex: handler ex]; [handler ex = None] when no
    [except] clause matches [ex], which then propagates. *)
Definition try_except {W A} (m : M W A) (handler : exn -> option (M W A)) : M W A :=
  fun w =>
    match m w with
    | (t1, Returned a, w1) => (t1, Returned a, w1)
    | (t1, Raised ex, w1) =>
        match handler ex with
        | Some k => match k w1 with (t2, o, w2) => (t1 ++ t2, o, w2) end
        | None => (t1, Raised ex, w1)
        end
    end.

(** One call to the outside: the event is recorded, the world answers. *)
Definition perform {W A} (ev : event) (answer : W -> outcome A * W) : M W A :=
  fun w => match answer w with (o, w') => ([ev], o, w') end.

Definition print {W} (text : string) : M W unit :=
  fun w => ([Print text], Returned tt, w).

Declare Scope service_scope.
Delimit Scope service_scope with service.
Notation "x <- m ;; k" := (bind m (fun x => k))
  (at level 100, m at next level, right associativity) : service_scope.
Notation "m ;;; k" := (bind m (fun _ => k))
  (at level 100, right associativity) : service_scope.

Local Open Scope service_scope.

(** ** The service functions of [elk.py] *)

Section Service.

Context `{Const} `{World W}.

(** *** Calls to the outside *)

(** [_es.cat.indices(index=..., h=..., s=...)] *)
Definition es_cat_indices (index h s : string) : M W string :=
  perform (Engine (CatIndices index h s)) (cat_indices index h s).

(** [_es.indices.exists(index=...)] *)
Definition es_indices_exists (index : string) : M W bool :=
  perform (Engine (IndicesExists index)) (indices_exists index).

(** [_es.indices.create(index=..., settings=...)] *)
Definition es_indices_create (index : string) (settings : pyval) : M W unit :=
  perform (Engine (IndicesCreate index settings)) (indices_create index settings).

(** [_es.indices.delete(index=...)] *)
Definition es_indices_delete (index : string) : M W unit :=
  perform (Engine (IndicesDelete index)) (indices_delete index).

(** [_es.index(index=..., document=..., id=..., error_trace=..., timeout=...)] *)
Definition es_index (index : string) (document : doc) (id : string)
    (error_trace : bool) (timeout : string) : M W unit :=
  perform (Engine (Index index document id error_trace timeout))
          (index_document index document id error_trace timeout).

(** [_es.search(...)], giving [res["hits"]["hits"]] *)
Definition es_search (kw : search_kwargs) : M W (list hit) :=
  perform (Engine (Search kw)) (search kw).

(** [helpers.bulk(client=_es, actions=..., index=...)] *)
Definition helpers_bulk (actions : DictReader) (index : string) : M W unit :=
  perform (Engine (Bulk actions index)) (bulk actions index).

(** [open(file=..., mode=..., encoding=...)], giving the text of the file *)
Definition open (file mode encoding : string) : M W string :=
  perform (Open file mode encoding) (open_file file mode encoding).

(** *** The prologue shared by the functions *)

(** [[
    allowed = True
    for char in SPECIAL_CHARS:
        if char in _index:
            allowed = False
    ]]
    The value of [allowed] after the loop. *)
Definition allowed (_index : string) : bool :=
  fold_left (fun allowed char => if Py.str_in char _index then false else allowed)
            SPECIAL_CHARS true.

(** [[
    if not _index.startswith(INDEX_NAME_PREFIX):
        _index = INDEX_NAME_PREFIX + _index
    ]]
    The value of [_index] after the statement. *)
Definition normalized (_index : string) : string :=
  if negb (Py.startswith _index INDEX_NAME_PREFIX)
  then INDEX_NAME_PREFIX +:+ _index
  else _index.

(** The broad handler's
    [print(f"\nError in file: {f_info.filename}, line: {f_info.lineno},\nDesc: {ex}\n")] *)
Definition print_failure (lineno : Z) (ex : exn) : M W unit :=
  print (Py.LF +:+ "Error in file: " +:+ module_file +:+ ", line: "
         +:+ Py.str_of_int lineno +:+ "," +:+ Py.LF +:+ "Desc: " +:+ str_of_exn ex +:+ Py.LF).

(** The timeout handler's
    [print(f"Error in file: {f_info.filename}, line: {f_info.lineno + 1}, Desc: {_c}")] *)
Definition print_timeout (lineno : Z) (_c : exn) : M W unit :=
  print ("Error in file: " +:+ module_file +:+ ", line: "
         +:+ Py.str_of_int (lineno + 1) +:+ ", Desc: " +:+ str_of_exn _c).

(** How a [try] statement of a search function ends: the handler returns
    from the function, or the body falls through with its variables. *)
Inductive completion (B : Type) :=
| Return (v : retval)
| Fallthrough (vars : B).
Arguments Return {B} v.
Arguments Fallthrough {B} vars.

(** [except ConnectionTimeout as _c:] of the search functions. *)
Definition except_ConnectionTimeout {B} (lineno : Z) (ex : exn)
  : option (M W (completion B)) :=
  match ex with
  | ConnectionTimeout _ =>
      Some (print_timeout lineno ex ;;;
            ret (Return (Envelope "Request timed out" sc.HTTP_408_REQUEST_TIMEOUT)))
  | OtherException _ => None
  end.

(** [for arr in res["hits"]["hits"]: l.append(f(arr))], from [l = []]. *)
Definition collect {B} (f : hit -> B) (hits : list hit) : list B :=
  fold_left (fun l arr => l ++ [f arr]) hits [].

(** *** No of existing valid indices *)

Definition no_of_tdp_idx : M W Z :=
  text <- es_cat_indices (INDEX_NAME_PREFIX +:+ "*") "index" "index:desc" ;;
  let idx_list := Py.split text in
  ret (Py.len idx_list).

(** *** Create single *)

Definition create_a_single_index (_index : string) : M W retval :=
  n <- no_of_tdp_idx ;;
  if n >=? MAX_IDX_LIM then
    ret (Envelope ("Maximum limit(=" +:+ Py.str_of_int MAX_IDX_LIM
                   +:+ ") of indices has already been reached,"
                   +:+ " not allowed to create anymore indices unless you delete some")
                  sc.HTTP_406_NOT_ACCEPTABLE)
  else if negb (allowed _index) then
    ret (Envelope ("IndexName must not contain any special chars other than"
                   +:+ " '_' or '-', index '" +:+ _index +:+ "' couldn't be created")
                  sc.HTTP_405_METHOD_NOT_ALLOWED)
  else
    let _index := normalized _index in
    found <- es_indices_exists _index ;;
    if negb found then
      let f_info_lineno := 70 in
      try_except
        (es_indices_create _index
           (PDict [("index", PDict [("number_of_shards", PStr "1");
                                    ("number_of_replicas", PInt 0)])]) ;;;
         ret (Envelope ("Successfully created index: " +:+ _index) sc.HTTP_200_OK))
        (fun ex => Some (
           print_failure f_info_lineno ex ;;;
           ret (Envelope ("Failed to create index: " +:+ _index) sc.HTTP_404_NOT_FOUND)))
    else
      ret (Envelope ("Not created, index '" +:+ _index +:+ "' already exists")
                    sc.HTTP_208_ALREADY_REPORTED).

(** *** Delete single *)

Definition delete_a_single_index (_index : string) : M W retval :=
  if negb (allowed _index) then
    ret (Envelope ("IndexName must not contain any special chars other than"
                   +:+ " '_' or '-', index '" +:+ _index +:+ "' couldn't be deleted") 405)
  else
    let _index := normalized _index in
    found <- es_indices_exists _index ;;
    if found then
      let f_info_lineno := 111 in
      try_except
        (es_indices_delete _index ;;;
         ret (Envelope ("Successfully deleted index: " +:+ _index) 200))
        (fun ex => Some (
           print_failure f_info_lineno ex ;;;
           ret (Envelope ("Failed to delete index: " +:+ _index) 404)))
    else
      ret (Envelope ("Index '" +:+ _index +:+ "' does not exist, nothing to delete")
                    sc.HTTP_400_BAD_REQUEST).

(** *** Insert single *)

Definition insert_a_single_doc (_index _doc_id : string) (_doc : doc) : M W retval :=
  if negb (allowed _index) then
    ret (Envelope ("IndexName must not contain any special chars other than"
                   +:+ " '_' or '-', index '" +:+ _index
                   +:+ "' couldn't index any record") 405)
  else
    let _index := normalized _index in
    found <- es_indices_exists _index ;;
    if found then
      let f_info_lineno := 145 in
      try_except
        (es_index _index _doc _doc_id true "30s" ;;;
         ret (Envelope ("Record successfully loaded into index '" +:+ _index +:+ "'") 200))
        (fun ex => Some (
           print_failure f_info_lineno ex ;;;
           ret (Envelope ("Failed to load record into index '" +:+ _index +:+ "'") 404)))
    else
      ret (Envelope ("'" +:+ _index
                     +:+ " doesn't exist, create this index to insert records'")
                    sc.HTTP_400_BAD_REQUEST).

(** *** Insert multiple *)

(** [with open(...) as _file: block]: the file is opened (which may raise),
    the block runs, and the file is closed however the block ends. *)
Definition with_open {A} (file mode encoding : string) (block : string -> M W A) : M W A :=
  _file <- open file mode encoding ;;
  fun w => match block _file w with
           | (t, o, w') => (t ++ [Close file], o, w')
           end.

Definition insert_multiple_docs_from_csv (_index _filename : string) : M W retval :=
  if negb (allowed _index) then
    ret (Envelope ("IndexName must not contain any special chars other than"
                   +:+ " '_' or '-', index '" +:+ _index
                   +:+ "' couldn't index any record") 405)
  else
    let _index := normalized _index in
    found <- es_indices_exists _index ;;
    (if negb found then create_a_single_index _index ;;; ret tt else ret tt) ;;;
    with_open _filename "r" "utf-8" (fun _file =>
      let f_info_lineno := 188 in
      try_except
        (let reader := csv_DictReader _file in
         helpers_bulk reader _index ;;;
         ret (Envelope ("Records successfully loaded into index '" +:+ _index +:+ "'") 200))
        (fun ex => Some (
           print_failure f_info_lineno ex ;;;
           ret (Envelope ("Failed to load records into index '" +:+ _index +:+ "'") 404)))).

(** *** Search by id *)

Definition search_record_from_index_by_given_id (_index _doc_id : string) : M W retval :=
  if negb (allowed _index) then
    ret (Envelope ("IndexName must not contain any special chars other than"
                   +:+ " '_' or '-', couldn't find any record from index '"
                   +:+ _index +:+ "'")
                  sc.HTTP_405_METHOD_NOT_ALLOWED)
  else
    let _index := normalized _index in
    found <- es_indices_exists _index ;;
    if found then
      let f_info_lineno := 223 in
      tried <- try_except
        (res <- es_search {| index := _index;
                             body := Some (Match "_id" _doc_id);
                             query := None;
                             size := None;
                             request_timeout := Some REQUEST_TIMEOUT |} ;;
         ret (Fallthrough res))
        (except_ConnectionTimeout f_info_lineno) ;;
      match tried with
      | Return v => ret v
      | Fallthrough res =>
          match res with
          | [] => ret (Envelope ("No record with id=" +:+ _doc_id
                                 +:+ " exists in index '" +:+ _index +:+ "'")
                                sc.HTTP_404_NOT_FOUND)
          | first :: _ => ret (Source (_source first))
          end
      end
    else
      ret (Envelope ("Index '" +:+ _index +:+ "' doesn't exist") sc.HTTP_404_NOT_FOUND).

(** *** Search all by key-value *)

Definition search_records_from_index_by_given_key_and_value
    (_index _key _val : string) : M W retval :=
  if negb (allowed _index) then
    ret (Envelope ("IndexName must not contain any special chars other than"
                   +:+ " '_' or '-', couldn't find any record from index '"
                   +:+ _index +:+ "'")
                  sc.HTTP_405_METHOD_NOT_ALLOWED)
  else
    let _index := normalized _index in
    found <- es_indices_exists _index ;;
    if found then
      let f_info_lineno := 274 in
      tried <- try_except
        (res <- es_search {| index := _index;
                             body := None;
                             query := Some (Match _key _val);
                             size := Some RECORDS;
                             request_timeout := Some REQUEST_TIMEOUT |} ;;
         let record_list := collect _source res in
         ret (Fallthrough (res, record_list)))
        (except_ConnectionTimeout f_info_lineno) ;;
      match tried with
      | Return v => ret v
      | Fallthrough (res, record_list) =>
          match res with
          | [] => ret (Envelope ("No record with key='" +:+ _key +:+ "' and value='"
                                 +:+ _val +:+ "' exists in index '" +:+ _index +:+ "'")
                                sc.HTTP_404_NOT_FOUND)
          | _ :: _ => ret (Records record_list)
          end
      end
    else
      ret (Envelope ("Index '" +:+ _index +:+ "' doesn't exist") sc.HTTP_404_NOT_FOUND).

(** *** Search field by key-value *)

Definition search_field_from_index_by_given_key_and_value
    (_index _field _key _val : string) : M W retval :=
  if negb (allowed _index) then
    ret (Envelope ("IndexName must not contain any special chars other than"
                   +:+ " '_' or '-', couldn't find any record from index '"
                   +:+ _index +:+ "'")
                  sc.HTTP_405_METHOD_NOT_ALLOWED)
  else
    let _index := normalized _index in
    found <- es_indices_exists _index ;;
    if found then
      let f_info_lineno := 326 in
      tried <- try_except
        (res <- es_search {| index := _index;
                             body := None;
                             query := Some (Match _key _val);
                             size := Some RECORDS;
                             request_timeout := Some REQUEST_TIMEOUT |} ;;
         let field_list := collect (fun arr => dict_get (_source arr) _field) res in
         ret (Fallthrough (res, field_list)))
        (except_ConnectionTimeout f_info_lineno) ;;
      match tried with
      | Return v => ret v
      | Fallthrough (res, field_list) =>
          match res with
          | [] => ret (Envelope ("No record with key='" +:+ _key +:+ "' and value='"
                                 +:+ _val +:+ "' exists in index '" +:+ _index +:+ "'")
                                sc.HTTP_404_NOT_FOUND)
          | _ :: _ => ret (Fields field_list)
          end
      end
    else
      ret (Envelope ("Index '" +:+ _index +:+ "' doesn't exist") sc.HTTP_404_NOT_FOUND).

(** *** Search all by time-range *)

Definition search_records_from_index_by_time_range
    (_index _date_field _start _end : string) : M W retval :=
  if negb (allowed _index) then
    ret (Envelope ("IndexName must not contain any special chars other than"
                   +:+ " '_' or '-', couldn't find any record from index '"
                   +:+ _index +:+ "'")
                  sc.HTTP_405_METHOD_NOT_ALLOWED)
  else
    let _index := normalized _index in
    found <- es_indices_exists _index ;;
    if found then
      let f_info_lineno := 379 in
      tried <- try_except
        (res <- es_search {| index := _index;
                             body := None;
                             query := Some (Range _date_field _start _end);
                             size := Some RECORDS;
                             request_timeout := Some REQUEST_TIMEOUT |} ;;
         let record_list := collect _source res in
         ret (Fallthrough (res, record_list)))
        (except_ConnectionTimeout f_info_lineno) ;;
      match tried with
      | Return v => ret v
      | Fallthrough (res, record_list) =>
          match res with
          | [] => ret (Envelope ("No record in given time-range exists in index '"
                                 +:+ _index +:+ "'")
                                sc.HTTP_404_NOT_FOUND)
          | _ :: _ => ret (Records record_list)
          end
      end
    else
      ret (Envelope ("Index '" +:+ _index +:+ "' doesn't exist") sc.HTTP_404_NOT_FOUND).

(** *** Search field by time-range *)

Definition search_field_from_index_by_time_range
    (_index _date_field _field _start _end : string) : M W retval :=
  if negb (allowed _index) then
    ret (Envelope ("IndexName must not contain any special chars other than"
                   +:+ " '_' or '-', couldn't find any record from index '"
                   +:+ _index +:+ "'")
                  sc.HTTP_405_METHOD_NOT_ALLOWED)
  else
    let _index := normalized _index in
    found <- es_indices_exists _index ;;
    if found then
      let f_info_lineno := 434 in
      tried <- try_except
        (res <- es_search {| index := _index;
                             body := None;
                             query := Some (Range _date_field _start _end);
                             size := Some RECORDS;
                             request_timeout := Some REQUEST_TIMEOUT |} ;;
         let data_list := collect (fun arr => dict_get (_source arr) _field) res in
         ret (Fallthrough (res, data_list)))
        (except_ConnectionTimeout f_info_lineno) ;;
      match tried with
      | Return v => ret v
      | Fallthrough (res, data_list) =>
          match res with
          | [] => ret (Envelope ("No record in given time-range exists in index '"
                                 +:+ _index +:+ "'")
                                sc.HTTP_404_NOT_FOUND)
          | _ :: _ => ret (Fields data_list)
          end
      end
    else
      ret (Envelope ("Index '" +:+ _index +:+ "' doesn't exist") sc.HTTP_404_NOT_FOUND).

(** *** Search by keyword *)

Definition search_all_occurances_of_keyword_in_index
    (_index _keyword : string) : M W retval :=
  if negb (allowed _index) then
    ret (Envelope ("IndexName must not contain any special chars other than"
                   +:+ " '_' or '-', couldn't find any record from index '"
                   +:+ _index +:+ "'")
                  sc.HTTP_405_METHOD_NOT_ALLOWED)
  else
    let _index := normalized _index in
    found <- es_indices_exists _index ;;
    if found then
      let f_info_lineno := 490 in
      tried <- try_except
        (res <- es_search {| index := _index;
                             body := None;
                             query := Some (QueryString _keyword);
                             size := Some RECORDS;
                             request_timeout := Some REQUEST_TIMEOUT |} ;;
         let record_list := collect _source res in
         ret (Fallthrough (res, record_list)))
        (except_ConnectionTimeout f_info_lineno) ;;
      match tried with
      | Return v => ret v
      | Fallthrough (res, record_list) =>
          match res with
          | [] => ret (Envelope ("No record in given time-range exists in index '"
                                 +:+ _index +:+ "'")
                                sc.HTTP_404_NOT_FOUND)
          | _ :: _ => ret (Records record_list)
          end
      end
    else
      ret (Envelope ("Index '" +:+ _index +:+ "' doesn't exist") sc.HTTP_404_NOT_FOUND).

(** *** Full text search *)

Definition search_all_occurances_of_text_in_index
    (_index _text : string) : M W retval :=
  if negb (allowed _index) then
    ret (Envelope ("IndexName must not contain any special chars other than"
                   +:+ " '_' or '-', couldn't find any record from index '"
                   +:+ _index +:+ "'")
                  sc.HTTP_405_METHOD_NOT_ALLOWED)
  else
    let _index := normalized _index in
    found <- es_indices_exists _index ;;
    if found then
      let _str := "*" +:+ _text +:+ "*" in
      let f_info_lineno := 544 in
      tried <- try_except
        (res <- es_search {| index := _index;
                             body := None;
                             query := Some (QueryString _str);
                             size := Some RECORDS;
                             request_timeout := Some REQUEST_TIMEOUT |} ;;
         let record_list := collect _source res in
         ret (Fallthrough (res, record_list)))
        (except_ConnectionTimeout f_info_lineno) ;;
      match tried with
      | Return v => ret v
      | Fallthrough (res, record_list) =>
          match res with
          | [] => ret (Envelope ("No record in given time-range exists in index '"
                                 +:+ _index +:+ "'")
                                sc.HTTP_404_NOT_FOUND)
          | _ :: _ => ret (Records record_list)
          end
      end
    else
      ret (Envelope ("Index '" +:+ _index +:+ "' doesn't exist") sc.HTTP_404_NOT_FOUND).

End Service.

(** ** The operations of the service as one family *)

(** One constructor per service function, with its arguments other than the
    client and the index name: what a caller of the service picks from. *)
Inductive operation :=
| Create
| Delete
| InsertDoc (_doc_id : string) (_doc : doc)
| InsertCsv (_filename : string)
| SearchById (_doc_id : string)
| SearchByKeyValue (_key _val : string)
| SearchFieldByKeyValue (_field _key _val : string)
| SearchByTimeRange (_date_field _start _end : string)
| SearchFieldByTimeRange (_date_field _field _start _end : string)
| SearchKeyword (_keyword : string)
| SearchText (_text : string).

Definition run_operation `{Const} `{World W} (op : operation) (_index : string)
  : M W retval :=
  match op with
  | Create => create_a_single_index _index
  | Delete => delete_a_single_index _index
  | InsertDoc _doc_id _doc => insert_a_single_doc _index _doc_id _doc
  | InsertCsv _filename => insert_multiple_docs_from_csv _index _filename
  | SearchById _doc_id => search_record_from_index_by_given_id _index _doc_id
  | SearchByKeyValue _key _val =>
      search_records_from_index_by_given_key_and_value _index _key _val
  | SearchFieldByKeyValue _field _key _val =>
      search_field_from_index_by_given_key_and_value _index _field _key _val
  | SearchByTimeRange _date_field _start _end =>
      search_records_from_index_by_time_range _index _date_field _start _end
  | SearchFieldByTimeRange _date_field _field _start _end =>
      search_field_from_index_by_time_range _index _date_field _field _start _end
  | SearchKeyword _keyword => search_all_occurances_of_keyword_in_index _index _keyword
  | SearchText _text => search_all_occurances_of_text_in_index _index _text
  end.

Definition is_search (op : operation) : bool :=
  match op with
  | Create | Delete | InsertDoc _ _ | InsertCsv _ => false
  | _ => true
  end.

(** The operations that need the index to exist: delete, single insert and
    the searches. *)
Definition requires_existing_index (op : operation) : bool :=
  match op with
  | Create | InsertCsv _ => false
  | _ => true
  end.

(** The field a field-projection search asks for. *)
Definition projected_field (op : operation) : option string :=
  match op with
  | SearchFieldByKeyValue _field _ _ => Some _field
  | SearchFieldByTimeRange _ _field _ _ => Some _field
  | _ => None
  end.

(** ** Reading a trace *)

(** The three parts of a run. *)
Definition trace_of {W A} (r : list event * outcome A * W) : list event := r.1.1.
Definition outcome_of {W A} (r : list event * outcome A * W) : outcome A := r.1.2.
Definition world_of {W A} (r : list event * outcome A * W) : W := r.2.

(** The keyword arguments of the search calls of a trace, in order. *)
Definition search_calls (t : list event) : list search_kwargs :=
  omap (fun ev => match ev with Engine (Search kw) => Some kw | _ => None end) t.

(** A trace without what was printed. *)
Definition without_prints (t : list event) : list event :=
  List.filter (fun ev => match ev with Print _ => false | _ => true end) t.

(** The status of a returned envelope. *)
Definition status_of (v : retval) : option Z :=
  match v with Envelope _ status => Some status | _ => None end.

(** ** A test double of the cluster and the file system *)

Module Double.

Definition const : Const := {|
  RECORDS := 100;
  SPECIAL_CHARS := ["!"; "@"; "#"; "$"; "%"; " "];
  REQUEST_TIMEOUT := 30;
  INDEX_NAME_PREFIX := "tdp_";
  MAX_IDX_LIM := 2
|}.

(** The state of the double: the names of its indices, the exception that
    create, delete, index, search and bulk raise (if any), the hits a search
    answers, and the files by path. *)
Record state := {
  names : list string;
  failing : option exn;
  hits : list hit;
  files : list (string * string)
}.

Definition answer {A} (w : state) (a : A) (w' : state) : outcome A * state :=
  match failing w with
  | Some ex => (Raised ex, w)
  | None => (Returned a, w')
  end.

Definition listing (w : state) : string :=
  foldr (fun name text => name +:+ Py.LF +:+ text) "" (names w).

Definition lookup_file (path : string) (w : state) : outcome string :=
  match list_find (fun entry => entry.1 = path) (files w) with
  | Some (_, (_, text)) => Returned text
  | None => Raised (OtherException "No such file or directory")
  end.

Definition world : World state := {|
  cat_indices _ _ _ w := (Returned (listing w), w);
  indices_exists name w := (Returned (bool_decide (name ∈ names w)), w);
  indices_create name _ w :=
    answer w tt {| names := name :: names w; failing := failing w;
                   hits := hits w; files := files w |};
  indices_delete name w :=
    answer w tt {| names := filter (fun n => n ≠ name) (names w); failing := failing w;
                   hits := hits w; files := files w |};
  index_document _ _ _ _ _ w := answer w tt w;
  search _ w := answer w (hits w) w;
  bulk _ _ w := answer w tt w;
  open_file path _ _ w := (lookup_file path w, w);
  module_file := "/app/api/service/elk.py"
|}.

(** A cluster with two indices (the configured maximum), one stored
    document without a [price] field, and one file. *)
Definition full : state := {|
  names := ["tdp_b"; "tdp_a"];
  failing := None;
  hits := [ {| _id := "1"; _source := {[ "name" := PStr "pen" ]} |} ];
  files := [("rows.csv", "name,price" +:+ Py.LF +:+ "pen,3" +:+ Py.LF)]
|}.

(** The same cluster with only the index [tdp_a]. *)
Definition one : state := {|
  names := ["tdp_a"]; failing := failing full; hits := hits full; files := files full
|}.

(** The cluster [one] when every request times out. *)
Definition timing_out : state := {|
  names := names one; failing := Some (ConnectionTimeout "Connection timed out");
  hits := hits one; files := files one
|}.

(** The cluster [one] when every request fails otherwise. *)
Definition broken : state := {|
  names := names one; failing := Some (OtherException "Connection refused");
  hits := hits one; files := files one
|}.

End Double.

(** ** Further reading of calls and results *)

(** The index a call is made on; the listing takes a pattern, not an index. *)
Definition call_index (c : call) : option string :=
  match c with
  | CatIndices _ _ _ => None
  | IndicesExists i | IndicesCreate i _ | IndicesDelete i => Some i
  | Index i _ _ _ _ => Some i
  | Search kw => Some (index kw)
  | Bulk _ i => Some i
  end.

(** The searches that return whole document bodies. *)
Definition returns_records (op : operation) : bool :=
  match op with
  | SearchByKeyValue _ _ | SearchByTimeRange _ _ _ | SearchKeyword _ | SearchText _ => true
  | _ => false
  end.

(** The statuses that appear in the [return] statements of each function. *)
Definition return_statuses (op : operation) : list Z :=
  match op with
  | Create => [406; 405; 200; 404; 208]
  | Delete | InsertDoc _ _ => [405; 200; 404; 400]
  | InsertCsv _ => [405; 200; 404]
  | _ => [405; 408; 404]
  end.

(** Keeping one field of each body of a returned list of records. *)
Definition project (_field : string) (o : outcome retval) : outcome retval :=
  match o with
  | Returned (Records record_list) =>
      Returned (Fields (map (fun body => dict_get body _field) record_list))
  | _ => o
  end.

(** The text of a listing with one name per line. *)
Definition lines (names : list string) : string :=
  foldr (fun name text => name +:+ Py.LF +:+ text) "" names.

(** A string without white space. *)
Definition space_free (s : string) : bool :=
  forallb (fun c => negb (Py.isspace c)) (list_ascii_of_string s).

(** ** A cluster that goes down *)

Module Outage.

(** The state is the number of calls that are still answered; after that
    every call raises a connection timeout.  An answered call finds no
    index, no hit and an empty file. *)
Definition answer {A} (a : A) (remaining : nat) : outcome A * nat :=
  match remaining with
  | O => (Raised (ConnectionTimeout "Connection timed out"), O)
  | S n => (Returned a, n)
  end.

Definition world : World nat := {|
  cat_indices _ _ _ := answer "";
  indices_exists _ := answer false;
  indices_create _ _ := answer tt;
  indices_delete _ := answer tt;
  index_document _ _ _ _ _ := answer tt;
  search _ := answer [];
  bulk _ _ := answer tt;
  open_file _ _ _ := answer "";
  module_file := "/app/api/service/elk.py"
|}.

End Outage.

(** * Properties *)

(** ** Python strings *)

Example split_ex :
  Py.split (" tdp_b" +:+ Py.LF +:+ "tdp_a  " +:+ Py.LF) = ["tdp_b"; "tdp_a"].
Proof. reflexivity. Qed.

Example str_of_int_ex :
  Py.str_of_int 50 = "50" /\ Py.str_of_int (-3) = "-3" /\ Py.str_of_int 0 = "0".
Proof. repeat split; reflexivity. Qed.

Example str_in_ex :
  Py.str_in "b!" "ab!c" = true /\ Py.str_in "" "" = true /\ Py.str_in "x" "ab" = false.
Proof. repeat split; reflexivity. Qed.


Lemma prefix_app (p s : string) : String.prefix p (p +:+ s) = true.
Proof.
  induction p as [|c p IH]; simpl.
  - by destruct s.
  - destruct (ascii_dec c c); [exact IH | congruence].
Qed.

(** ** The monad *)

Section Monad.

Context {W : Type}.

Lemma perform_eq {A} (ev : event) (answer : W -> outcome A * W) w o w' :
  answer w = (o, w') -> perform ev answer w = ([ev], o, w').
Proof. unfold perform. by intros ->. Qed.

Lemma bind_returned {A B} (m : M W A) (k : A -> M W B) w t a w1 :
  m w = (t, Returned a, w1) ->
  bind m k w = (let '(t2, o, w2) := k a w1 in (t ++ t2, o, w2)).
Proof. unfold bind. by intros ->. Qed.

Lemma bind_raised {A B} (m : M W A) (k : A -> M W B) w t ex w1 :
  m w = (t, Raised ex, w1) -> bind m k w = (t, Raised ex, w1).
Proof. unfold bind. by intros ->. Qed.

Lemma bind_ret {A B} (a : A) (k : A -> M W B) w :
  bind (ret a) k w = k a w.
Proof. unfold bind, ret. by destruct (k a w) as [[t o] w']. Qed.

Lemma try_except_returned {A} (m : M W A) handler w t a w1 :
  m w = (t, Returned a, w1) -> try_except m handler w = (t, Returned a, w1).
Proof. unfold try_except. by intros ->. Qed.

Lemma try_except_caught {A} (m : M W A) handler k w t ex w1 :
  m w = (t, Raised ex, w1) -> handler ex = Some k ->
  try_except m handler w = (let '(t2, o, w2) := k w1 in (t ++ t2, o, w2)).
Proof. unfold try_except. by intros -> ->. Qed.

Lemma try_except_uncaught {A} (m : M W A) handler w t ex w1 :
  m w = (t, Raised ex, w1) -> handler ex = None ->
  try_except m handler w = (t, Raised ex, w1).
Proof. unfold try_except. by intros -> ->. Qed.

End Monad.

(** ** The prologue *)

Section Prologue.

Context `{Const}.

Lemma allowed_loop (_index : string) (chars : list string) (acc : bool) :
  fold_left (fun allowed char => if Py.str_in char _index then false else allowed)
            chars acc
  = acc && forallb (fun char => negb (Py.str_in char _index)) chars.
Proof.
  revert acc; induction chars as [|c chars IH]; intros acc; simpl.
  - by rewrite andb_true_r.
  - rewrite IH. destruct (Py.str_in c _index), acc; simpl; try done.
Qed.

(** [allowed] is [False] exactly when an item of [SPECIAL_CHARS] occurs in
    the name. *)
Lemma allowed_false_iff (_index : string) :
  allowed _index = false <->
  exists char, In char SPECIAL_CHARS /\ Py.str_in char _index = true.
Proof.
  unfold allowed. rewrite allowed_loop. simpl.
  rewrite <- not_true_iff_false, forallb_forall. split.
  - intros Hn. induction SPECIAL_CHARS as [|c l IH].
    + exfalso. apply Hn. intros x [].
    + destruct (Py.str_in c _index) eqn:E.
      * exists c. split; [by left | done].
      * destruct IH as (x & Hx & Hin).
        -- intros Hall. apply Hn. intros x [<- | Hx]; [by rewrite E | by apply Hall].
        -- exists x. split; [by right | done].
  - intros (c & Hc & Hin) Hall. specialize (Hall c Hc). by rewrite Hin in Hall.
Qed.

Lemma normalized_startswith (_index : string) :
  Py.startswith (normalized _index) INDEX_NAME_PREFIX = true.
Proof.
  unfold normalized.
  destruct (Py.startswith _index INDEX_NAME_PREFIX) eqn:E; simpl.
  - exact E.
  - apply prefix_app.
Qed.

(** C7: normalising an index name is idempotent.  A name that already starts
    with [INDEX_NAME_PREFIX] is returned unchanged, and for every name,
    normalising twice gives what normalising once gives. *)
Theorem normalized_idempotent :
  (forall _index : string,
     Py.startswith _index INDEX_NAME_PREFIX = true -> normalized _index = _index)
  /\ (forall _index : string, normalized (normalized _index) = normalized _index).
Proof.
  assert (Hfix : forall i, Py.startswith i INDEX_NAME_PREFIX = true -> normalized i = i).
  { intros i Hi. unfold normalized. by rewrite Hi. }
  split; [exact Hfix |].
  intros i. apply Hfix, normalized_startswith.
Qed.

Lemma collect_from {B} (f : hit -> B) (hits : list hit) (l : list B) :
  fold_left (fun l arr => l ++ [f arr]) hits l = l ++ map f hits.
Proof.
  revert l; induction hits as [|h hits IH]; intros l; simpl.
  - by rewrite app_nil_r.
  - by rewrite IH, <- app_assoc.
Qed.

(** The loop over the hits appends one entry per hit, in order. *)
Lemma collect_map {B} (f : hit -> B) (hits : list hit) :
  collect f hits = map f hits.
Proof. unfold collect. by rewrite collect_from. Qed.

End Prologue.

(** ** The service functions *)

Ltac unfold_service :=
  unfold run_operation, create_a_single_index, delete_a_single_index,
    insert_a_single_doc, insert_multiple_docs_from_csv,
    search_record_from_index_by_given_id,
    search_records_from_index_by_given_key_and_value,
    search_field_from_index_by_given_key_and_value,
    search_records_from_index_by_time_range,
    search_field_from_index_by_time_range,
    search_all_occurances_of_keyword_in_index,
    search_all_occurances_of_text_in_index,
    no_of_tdp_idx, with_open, es_cat_indices, es_indices_exists,
    es_indices_create, es_indices_delete, es_index, es_search, helpers_bulk,
    open, print_failure, print_timeout, print.

Ltac unfold_monad := unfold bind, try_except, perform, ret.

Section Operations.

Context `{Const} `{World W}.

(** C1: whatever the index name, [create_a_single_index] returns the
    capacity-failure envelope, status 406, whenever the number of indices
    that the engine lists under the prefix is at least [MAX_IDX_LIM]; the
    listing is the only call made, so the check comes before the validation
    of the name, its normalisation and any existence or create call. *)
Theorem create_refuses_at_capacity (_index text : string) (w w' : W) :
  cat_indices (INDEX_NAME_PREFIX +:+ "*") "index" "index:desc" w = (Returned text, w') ->
  Py.len (Py.split text) >= MAX_IDX_LIM ->
  exists message,
    create_a_single_index _index w =
      ([Engine (CatIndices (INDEX_NAME_PREFIX +:+ "*") "index" "index:desc")],
       Returned (Envelope message 406), w').
Proof.
  intros Hcat Hfull.
  unfold_service; unfold_monad. rewrite Hcat.
  assert (Hge : (Py.len (Py.split text) >=? MAX_IDX_LIM) = true).
  { rewrite Z.geb_le. lia. }
  rewrite Hge. simpl. eexists. reflexivity.
Qed.

(** C4: for a valid index name whose normalised form the engine reports as
    absent, delete, single insert and each search return an envelope, with
    status 400 (delete, insert) or 404 (searches), and the existence check
    is the only call made. *)
Theorem missing_index_short_circuits (op : operation) (_index : string) (w w' : W) :
  requires_existing_index op = true ->
  allowed _index = true ->
  indices_exists (normalized _index) w = (Returned false, w') ->
  exists message status,
    run_operation op _index w =
      ([Engine (IndicesExists (normalized _index))],
       Returned (Envelope message status), w')
    /\ status = (if is_search op then 404 else 400).
Proof.
  intros Hop Hallowed Hexists.
  destruct op; try discriminate Hop;
    unfold_service; unfold_monad; rewrite Hallowed; simpl; rewrite Hexists; simpl;
    do 2 eexists; (split; [reflexivity | reflexivity]).
Qed.

(** A search function on a valid name whose index exists issues one query,
    at the state [w1] the existence check leaves; when the engine answers
    that query with a connection timeout, the handler prints and the function
    returns the 408 envelope. *)
Lemma search_run (op : operation) (_index : string) (w w1 : W) :
  is_search op = true ->
  allowed _index = true ->
  indices_exists (normalized _index) w = (Returned true, w1) ->
  exists kw,
    search_calls (trace_of (run_operation op _index w)) = [kw]
    /\ (forall desc w2,
          search kw w1 = (Raised (ConnectionTimeout desc), w2) ->
          exists text,
            run_operation op _index w =
              ([Engine (IndicesExists (normalized _index)); Engine (Search kw); Print text],
               Returned (Envelope "Request timed out" 408), w2)).
Proof.
  intros Hop Hallowed Hexists.
  destruct op; try discriminate Hop;
    unfold_service; unfold_monad; rewrite Hallowed; simpl; rewrite Hexists; simpl;
    match goal with
    | |- context [search ?kw w1] => exists kw; split
    end;
    try (intros desc w2 Hsearch; rewrite Hsearch; simpl; eexists; reflexivity);
    match goal with
    | |- context [search ?kw w1] =>
        destruct (search kw w1) as [[res|[desc|desc]] w2]; simpl
    end;
    try destruct res; reflexivity.
Qed.

(** C5: a search function that finds its index issues one query, [kw]; when
    the engine answers that query with a connection timeout, the function
    prints and returns the envelope [Request timed out] with status 408,
    which is neither of the envelopes with status 404 (no record found,
    index missing). *)
Theorem search_timeout_is_408 (op : operation) (_index : string) (w w1 : W) :
  is_search op = true ->
  allowed _index = true ->
  indices_exists (normalized _index) w = (Returned true, w1) ->
  exists kw,
    search_calls (trace_of (run_operation op _index w)) = [kw]
    /\ (forall desc w2,
          search kw w1 = (Raised (ConnectionTimeout desc), w2) ->
          exists text,
            run_operation op _index w =
              ([Engine (IndicesExists (normalized _index)); Engine (Search kw); Print text],
               Returned (Envelope "Request timed out" sc.HTTP_408_REQUEST_TIMEOUT), w2))
    /\ sc.HTTP_408_REQUEST_TIMEOUT = 408
    /\ (forall message,
          Envelope "Request timed out" sc.HTTP_408_REQUEST_TIMEOUT
          <> Envelope message sc.HTTP_404_NOT_FOUND).
Proof.
  intros Hop Hallowed Hexists.
  destruct (search_run op _index w w1 Hop Hallowed Hexists) as (kw & Hcalls & Htimeout).
  exists kw. split; [exact Hcalls | split; [exact Htimeout | split]].
  - reflexivity.
  - intros message Heq. discriminate Heq.
Qed.

(** A field-projection search on a valid name whose index exists issues one
    query; when the engine answers it with the hits [res], the function
    returns the list of the field's values, or the 404 envelope when there
    is no hit. *)
Lemma projection_run (op : operation) (_field _index : string) (w w1 : W) :
  projected_field op = Some _field ->
  allowed _index = true ->
  indices_exists (normalized _index) w = (Returned true, w1) ->
  exists kw,
    search_calls (trace_of (run_operation op _index w)) = [kw]
    /\ (forall res w2,
          search kw w1 = (Returned res, w2) ->
          exists message,
            run_operation op _index w =
              ([Engine (IndicesExists (normalized _index)); Engine (Search kw)],
               Returned (match res with
                         | [] => Envelope message 404
                         | _ :: _ =>
                             Fields (map (fun arr => dict_get (_source arr) _field) res)
                         end), w2)).
Proof.
  intros Hop Hallowed Hexists.
  destruct op; try discriminate Hop; injection Hop as ->;
    unfold_service; unfold_monad; rewrite Hallowed; simpl; rewrite Hexists; simpl;
    match goal with
    | |- context [search ?kw w1] => exists kw; split
    end;
    try (intros res w2 Hsearch; rewrite Hsearch; simpl; rewrite collect_map;
         eexists; destruct res; reflexivity);
    match goal with
    | |- context [search ?kw w1] =>
        destruct (search kw w1) as [[res|[desc|desc]] w2]; simpl
    end;
    try destruct res; reflexivity.
Qed.

(** C8: a field-projection search that finds its index issues one query,
    [kw]; when the engine answers it with the hits [res], the list built
    from them has one entry per hit, in order, and the entry of a hit whose
    body lacks the field is [None]: the entry is not left out and the lookup
    does not raise.  That list is what the function returns (when there is
    no hit at all it returns the 404 envelope instead). *)
Theorem projection_keeps_one_entry_per_hit (op : operation) (_field _index : string)
    (w w1 : W) :
  projected_field op = Some _field ->
  allowed _index = true ->
  indices_exists (normalized _index) w = (Returned true, w1) ->
  exists kw,
    search_calls (trace_of (run_operation op _index w)) = [kw]
    /\ (forall (res : list hit) (w2 : W),
          search kw w1 = (Returned res, w2) ->
          exists field_list : list pyval,
            (exists message,
               run_operation op _index w =
                 ([Engine (IndicesExists (normalized _index)); Engine (Search kw)],
                  Returned (match res with
                            | [] => Envelope message 404
                            | _ :: _ => Fields field_list
                            end), w2))
            /\ length field_list = length res
            /\ (forall (i : nat) (arr : hit),
                  res !! i = Some arr ->
                  field_list !! i = Some (dict_get (_source arr) _field))
            /\ (forall (i : nat) (arr : hit),
                  res !! i = Some arr -> _source arr !! _field = None ->
                  field_list !! i = Some PNone)).
Proof.
  intros Hop Hallowed Hexists.
  destruct (projection_run op _field _index w w1 Hop Hallowed Hexists)
    as (kw & Hcalls & Hrun).
  exists kw. split; [exact Hcalls |].
  intros res w2 Hsearch.
  exists (map (fun arr => dict_get (_source arr) _field) res).
  split; [| split; [| split]].
  - exact (Hrun res w2 Hsearch).
  - apply length_map.
  - intros i arr Hi. by rewrite list_lookup_fmap, Hi.
  - intros i arr Hi Hmissing.
    rewrite list_lookup_fmap, Hi. simpl. unfold dict_get. by rewrite Hmissing.
Qed.

(** C2, as the code has it: every search function passes the fixed
    [REQUEST_TIMEOUT] to the query it issues, and every search function
    except the search by id also passes the page size [RECORDS]; the search
    by id passes no [size].  On a valid name whose index exists, exactly one
    query is issued. *)
Theorem search_passes_timeout_and_page_size (op : operation) (_index : string) (w : W) :
  is_search op = true ->
  Forall (fun kw =>
            request_timeout kw = Some REQUEST_TIMEOUT
            /\ size kw = match op with SearchById _ => None | _ => Some RECORDS end)
         (search_calls (trace_of (run_operation op _index w)))
  /\ (forall w1 : W,
        allowed _index = true ->
        indices_exists (normalized _index) w = (Returned true, w1) ->
        exists kw, search_calls (trace_of (run_operation op _index w)) = [kw]).
Proof.
  intros Hop. split.
  - destruct op; try discriminate Hop;
      unfold_service; unfold_monad; destruct (allowed _index); simpl;
      try constructor;
      destruct (indices_exists (normalized _index) w) as [[[|]|ex] w1]; simpl;
      try constructor;
      match goal with
      | |- context [search ?kw w1] =>
          destruct (search kw w1) as [[res|[desc|desc]] w2]; simpl
      end;
      try destruct res; simpl; repeat constructor.
  - intros w1 Hallowed Hexists.
    destruct (search_run op _index w w1 Hop Hallowed Hexists) as (kw & Hcalls & _).
    by exists kw.
Qed.

(** C9: the text search issues the query-string query on the text wrapped
    in a leading and a trailing wildcard, and it behaves as the keyword
    search on that wrapped text: same outcome, same effect on the world and
    the same calls.  (Only the line number printed by the timeout handler
    differs, each function naming its own line.) *)
Theorem text_search_wraps_with_wildcards (_index _text : string) (w : W) :
  let by_text := search_all_occurances_of_text_in_index _index _text w in
  let by_keyword :=
    search_all_occurances_of_keyword_in_index _index ("*" +:+ _text +:+ "*") w in
  outcome_of by_text = outcome_of by_keyword
  /\ world_of by_text = world_of by_keyword
  /\ without_prints (trace_of by_text) = without_prints (trace_of by_keyword)
  /\ Forall (fun kw => query kw = Some (QueryString ("*" +:+ _text +:+ "*")))
            (search_calls (trace_of by_text))
  /\ (forall w1 : W,
        allowed _index = true ->
        indices_exists (normalized _index) w = (Returned true, w1) ->
        exists kw, search_calls (trace_of by_text) = [kw]).
Proof.
  unfold_service; unfold_monad. simpl.
  destruct (allowed _index); simpl.
  2: { repeat split; try constructor. intros; discriminate. }
  destruct (indices_exists (normalized _index) w) as [[[|]|ex] w1]; simpl.
  2, 3: repeat split; try constructor; intros; discriminate.
  match goal with
  | |- context [search ?kw w1] => destruct (search kw w1) as [[res|[desc|desc]] w2]
  end; simpl; try destruct res; simpl;
    (repeat split; [repeat constructor | intros; eexists; reflexivity]).
Qed.

(** The bulk insert from the point where the file is opened: the bulk call
    is issued and its outcome alone decides the envelope. *)
Lemma bulk_block (_index _filename text : string) (w w1 w2 : W) (ob : outcome unit) :
  open_file _filename "r" "utf-8" w = (Returned text, w1) ->
  bulk (csv_DictReader text) _index w1 = (ob, w2) ->
  exists message printed,
    with_open _filename "r" "utf-8" (fun _file =>
      try_except
        (helpers_bulk (csv_DictReader _file) _index ;;;
         ret (Envelope ("Records successfully loaded into index '" +:+ _index +:+ "'") 200))
        (fun ex => Some (
           print_failure 188 ex ;;;
           ret (Envelope ("Failed to load records into index '" +:+ _index +:+ "'") 404))))
      w
    = ([Open _filename "r" "utf-8"; Engine (Bulk (csv_DictReader text) _index)]
         ++ map Print printed ++ [Close _filename],
       Returned (Envelope message (match ob with Returned _ => 200 | Raised _ => 404 end)),
       w2).
Proof.
  intros Hopen Hbulk.
  unfold_service; unfold_monad. rewrite Hopen. simpl. rewrite Hbulk.
  destruct ob as [[]|ex]; simpl.
  - eexists _, []. reflexivity.
  - eexists _, [_]. reflexivity.
Qed.

(** C10: when the target index does not exist, the bulk insert calls
    [create_a_single_index] and drops the envelope [created] it returns,
    whatever it is: the file is opened, the bulk call is issued, and the
    envelope returned reports the bulk call alone, 200 when it succeeds and
    404 when it raises. *)
Theorem bulk_insert_ignores_creation (_index _filename text : string)
    (w w1 w2 w3 w4 : W) (tc : list event) (created : retval) (ob : outcome unit) :
  allowed _index = true ->
  indices_exists (normalized _index) w = (Returned false, w1) ->
  create_a_single_index (normalized _index) w1 = (tc, Returned created, w2) ->
  open_file _filename "r" "utf-8" w2 = (Returned text, w3) ->
  bulk (csv_DictReader text) (normalized _index) w3 = (ob, w4) ->
  exists message printed,
    insert_multiple_docs_from_csv _index _filename w =
      ([Engine (IndicesExists (normalized _index))] ++ tc
         ++ [Open _filename "r" "utf-8";
             Engine (Bulk (csv_DictReader text) (normalized _index))]
         ++ map Print printed ++ [Close _filename],
       Returned (Envelope message (match ob with Returned _ => 200 | Raised _ => 404 end)),
       w4).
Proof.
  intros Hallowed Hexists Hcreate Hopen Hbulk.
  destruct (bulk_block (normalized _index) _filename text w2 w3 w4 ob Hopen Hbulk)
    as (message & printed & Hblock).
  exists message, printed.
  unfold insert_multiple_docs_from_csv. rewrite Hallowed. simpl.
  erewrite bind_returned by (apply perform_eq, Hexists). simpl.
  erewrite (bind_returned (bind (create_a_single_index (normalized _index)) _)).
  2: { erewrite bind_returned by exact Hcreate. unfold ret. reflexivity. }
  rewrite Hblock. by rewrite app_nil_r.
Qed.

(** The broad handlers of create, delete, single insert and bulk insert:
    whatever the delegated call raises, a connection timeout included, the
    function prints and returns its failure envelope with status 404. *)
Lemma create_failure (_index text : string) (w w0 w1 w2 : W) (ex : exn) :
  cat_indices (INDEX_NAME_PREFIX +:+ "*") "index" "index:desc" w = (Returned text, w0) ->
  Py.len (Py.split text) < MAX_IDX_LIM ->
  allowed _index = true ->
  indices_exists (normalized _index) w0 = (Returned false, w1) ->
  indices_create (normalized _index)
    (PDict [("index", PDict [("number_of_shards", PStr "1");
                             ("number_of_replicas", PInt 0)])]) w1
    = (Raised ex, w2) ->
  exists text',
    create_a_single_index _index w =
      ([Engine (CatIndices (INDEX_NAME_PREFIX +:+ "*") "index" "index:desc");
        Engine (IndicesExists (normalized _index));
        Engine (IndicesCreate (normalized _index)
                  (PDict [("index", PDict [("number_of_shards", PStr "1");
                                           ("number_of_replicas", PInt 0)])]));
        Print text'],
       Returned (Envelope ("Failed to create index: " +:+ normalized _index) 404), w2).
Proof.
  intros Hcat Hroom Hallowed Hexists Hcreate.
  unfold_service; unfold_monad. rewrite Hcat.
  assert (Hlt : (Py.len (Py.split text) >=? MAX_IDX_LIM) = false).
  { apply not_true_iff_false. rewrite Z.geb_le. lia. }
  rewrite Hlt, Hallowed. simpl. rewrite Hexists. simpl. rewrite Hcreate. simpl.
  eexists. reflexivity.
Qed.

Lemma delete_failure (_index : string) (w w1 w2 : W) (ex : exn) :
  allowed _index = true ->
  indices_exists (normalized _index) w = (Returned true, w1) ->
  indices_delete (normalized _index) w1 = (Raised ex, w2) ->
  exists text,
    delete_a_single_index _index w =
      ([Engine (IndicesExists (normalized _index));
        Engine (IndicesDelete (normalized _index));
        Print text],
       Returned (Envelope ("Failed to delete index: " +:+ normalized _index) 404), w2).
Proof.
  intros Hallowed Hexists Hdelete.
  unfold_service; unfold_monad. rewrite Hallowed. simpl. rewrite Hexists. simpl.
  rewrite Hdelete. simpl. eexists. reflexivity.
Qed.

Lemma insert_failure (_index _doc_id : string) (_doc : doc) (w w1 w2 : W) (ex : exn) :
  allowed _index = true ->
  indices_exists (normalized _index) w = (Returned true, w1) ->
  index_document (normalized _index) _doc _doc_id true "30s" w1 = (Raised ex, w2) ->
  exists text,
    insert_a_single_doc _index _doc_id _doc w =
      ([Engine (IndicesExists (normalized _index));
        Engine (Index (normalized _index) _doc _doc_id true "30s");
        Print text],
       Returned (Envelope ("Failed to load record into index '"
                           +:+ normalized _index +:+ "'") 404), w2).
Proof.
  intros Hallowed Hexists Hindex.
  unfold_service; unfold_monad. rewrite Hallowed. simpl. rewrite Hexists. simpl.
  rewrite Hindex. simpl. eexists. reflexivity.
Qed.

Lemma bulk_failure (_index _filename text : string) (w w1 w2 w3 : W) (ex : exn) :
  allowed _index = true ->
  indices_exists (normalized _index) w = (Returned true, w1) ->
  open_file _filename "r" "utf-8" w1 = (Returned text, w2) ->
  bulk (csv_DictReader text) (normalized _index) w2 = (Raised ex, w3) ->
  exists text',
    insert_multiple_docs_from_csv _index _filename w =
      ([Engine (IndicesExists (normalized _index));
        Open _filename "r" "utf-8";
        Engine (Bulk (csv_DictReader text) (normalized _index));
        Print text';
        Close _filename],
       Returned (Envelope ("Failed to load records into index '"
                           +:+ normalized _index +:+ "'") 404), w3).
Proof.
  intros Hallowed Hexists Hopen Hbulk.
  unfold_service; unfold_monad. rewrite Hallowed. simpl. rewrite Hexists. simpl.
  rewrite Hopen. simpl. rewrite Hbulk. simpl. eexists. reflexivity.
Qed.

(** C3, as the code has it: only the search functions catch the connection
    timeout on its own: a search that finds its index issues one query,
    [kw], and when the engine answers it with a connection timeout the
    function returns the request-timeout envelope (408).  In create, delete,
    single insert and bulk insert the one handler is the broad one: the
    function issues its delegated call, and whatever exception [ex] that
    call raises, a connection timeout included, it prints and returns its
    generic failure envelope with status 404. *)
Theorem timeout_handling (_index : string) :
  allowed _index = true ->
  (forall (op : operation) (w w1 : W),
     is_search op = true ->
     indices_exists (normalized _index) w = (Returned true, w1) ->
     exists kw,
       search_calls (trace_of (run_operation op _index w)) = [kw]
       /\ (forall desc w2,
             search kw w1 = (Raised (ConnectionTimeout desc), w2) ->
             exists text,
               run_operation op _index w =
                 ([Engine (IndicesExists (normalized _index)); Engine (Search kw);
                   Print text],
                  Returned (Envelope "Request timed out" 408), w2)))
  /\ (forall (text : string) (w w0 w1 w2 : W) (ex : exn),
        cat_indices (INDEX_NAME_PREFIX +:+ "*") "index" "index:desc" w
          = (Returned text, w0) ->
        Py.len (Py.split text) < MAX_IDX_LIM ->
        indices_exists (normalized _index) w0 = (Returned false, w1) ->
        indices_create (normalized _index)
          (PDict [("index", PDict [("number_of_shards", PStr "1");
                                   ("number_of_replicas", PInt 0)])]) w1
          = (Raised ex, w2) ->
        exists text',
          run_operation Create _index w =
            ([Engine (CatIndices (INDEX_NAME_PREFIX +:+ "*") "index" "index:desc");
              Engine (IndicesExists (normalized _index));
              Engine (IndicesCreate (normalized _index)
                        (PDict [("index", PDict [("number_of_shards", PStr "1");
                                                 ("number_of_replicas", PInt 0)])]));
              Print text'],
             Returned (Envelope ("Failed to create index: " +:+ normalized _index) 404),
             w2))
  /\ (forall (w w1 w2 : W) (ex : exn),
        indices_exists (normalized _index) w = (Returned true, w1) ->
        indices_delete (normalized _index) w1 = (Raised ex, w2) ->
        exists text,
          run_operation Delete _index w =
            ([Engine (IndicesExists (normalized _index));
              Engine (IndicesDelete (normalized _index));
              Print text],
             Returned (Envelope ("Failed to delete index: " +:+ normalized _index) 404),
             w2))
  /\ (forall (_doc_id : string) (_doc : doc) (w w1 w2 : W) (ex : exn),
        indices_exists (normalized _index) w = (Returned true, w1) ->
        index_document (normalized _index) _doc _doc_id true "30s" w1 = (Raised ex, w2) ->
        exists text,
          run_operation (InsertDoc _doc_id _doc) _index w =
            ([Engine (IndicesExists (normalized _index));
              Engine (Index (normalized _index) _doc _doc_id true "30s");
              Print text],
             Returned (Envelope ("Failed to load record into index '"
                                 +:+ normalized _index +:+ "'") 404),
             w2))
  /\ (forall (_filename text : string) (w w1 w2 w3 : W) (ex : exn),
        indices_exists (normalized _index) w = (Returned true, w1) ->
        open_file _filename "r" "utf-8" w1 = (Returned text, w2) ->
        bulk (csv_DictReader text) (normalized _index) w2 = (Raised ex, w3) ->
        exists text',
          run_operation (InsertCsv _filename) _index w =
            ([Engine (IndicesExists (normalized _index));
              Open _filename "r" "utf-8";
              Engine (Bulk (csv_DictReader text) (normalized _index));
              Print text';
              Close _filename],
             Returned (Envelope ("Failed to load records into index '"
                                 +:+ normalized _index +:+ "'") 404),
             w3)).
Proof.
  intros Hallowed. split; [| split; [| split; [| split]]].
  - intros op w w1 Hop Hexists.
    exact (search_run op _index w w1 Hop Hallowed Hexists).
  - intros text w w0 w1 w2 ex Hcat Hroom Hexists Hcreate.
    exact (create_failure _index text w w0 w1 w2 ex Hcat Hroom Hallowed Hexists Hcreate).
  - intros w w1 w2 ex Hexists Hdelete.
    exact (delete_failure _index w w1 w2 ex Hallowed Hexists Hdelete).
  - intros _doc_id _doc w w1 w2 ex Hexists Hindex.
    exact (insert_failure _index _doc_id _doc w w1 w2 ex Hallowed Hexists Hindex).
  - intros _filename text w w1 w2 w3 ex Hexists Hopen Hbulk.
    exact (bulk_failure _index _filename text w w1 w2 w3 ex Hallowed Hexists Hopen Hbulk).
Qed.

(** C6, as the code has it: on a name in which an item of [SPECIAL_CHARS]
    occurs, every function other than create returns the validation-failure
    envelope with status 405 without calling anything, so nothing can raise;
    create does the same once the engine has listed fewer than
    [MAX_IDX_LIM] indices, the listing being its only call. *)
Theorem special_chars_rejected (op : operation) (_index : string) (w : W) :
  (exists char, In char SPECIAL_CHARS /\ Py.str_in char _index = true) ->
  (op <> Create ->
   exists message,
     run_operation op _index w = ([], Returned (Envelope message 405), w))
  /\ (forall (text : string) (w' : W),
        cat_indices (INDEX_NAME_PREFIX +:+ "*") "index" "index:desc" w
          = (Returned text, w') ->
        Py.len (Py.split text) < MAX_IDX_LIM ->
        exists message,
          run_operation Create _index w =
            ([Engine (CatIndices (INDEX_NAME_PREFIX +:+ "*") "index" "index:desc")],
             Returned (Envelope message 405), w')).
Proof.
  intros Hspecial. apply allowed_false_iff in Hspecial. split.
  - intros Hop. destruct op; try congruence;
      unfold_service; unfold_monad; rewrite Hspecial; simpl; eexists; reflexivity.
  - intros text w' Hcat Hroom.
    unfold_service; unfold_monad. rewrite Hcat.
    assert (Hlt : (Py.len (Py.split text) >=? MAX_IDX_LIM) = false).
    { apply not_true_iff_false. rewrite Z.geb_le. lia. }
    rewrite Hlt, Hspecial. simpl. eexists. reflexivity.
Qed.

End Operations.

(** ** The properties on the test double *)

Section OnTheDouble.

#[local] Existing Instance Double.const.
#[local] Existing Instance Double.world.

Lemma create_refuses_at_capacity_witness :
  cat_indices (INDEX_NAME_PREFIX +:+ "*") "index" "index:desc" Double.full
    = (Returned (Double.listing Double.full), Double.full)
  /\ Py.len (Py.split (Double.listing Double.full)) >= MAX_IDX_LIM
  /\ exists message,
       create_a_single_index "ord!ers" Double.full =
         ([Engine (CatIndices (INDEX_NAME_PREFIX +:+ "*") "index" "index:desc")],
          Returned (Envelope message 406), Double.full).
Proof.
  split; [reflexivity | split; [vm_compute; discriminate |]].
  apply (create_refuses_at_capacity "ord!ers" (Double.listing Double.full)
           Double.full Double.full).
  - reflexivity.
  - vm_compute; discriminate.
Defined.

Lemma missing_index_short_circuits_witness :
  allowed "orders" = true
  /\ indices_exists (normalized "orders") Double.one = (Returned false, Double.one)
  /\ exists message status,
       run_operation (SearchText "pen") "orders" Double.one =
         ([Engine (IndicesExists (normalized "orders"))],
          Returned (Envelope message status), Double.one)
       /\ status = 404.
Proof.
  split; [reflexivity | split; [reflexivity |]].
  apply (missing_index_short_circuits (SearchText "pen") "orders" Double.one Double.one);
    reflexivity.
Defined.

Lemma search_timeout_is_408_witness :
  (exists text,
     run_operation (SearchKeyword "pen") "a" Double.timing_out =
       ([Engine (IndicesExists (normalized "a"));
         Engine (Search {| index := "tdp_a"; body := None;
                           query := Some (QueryString "pen");
                           size := Some 100; request_timeout := Some 30 |});
         Print text],
        Returned (Envelope "Request timed out" sc.HTTP_408_REQUEST_TIMEOUT),
        Double.timing_out))
  /\ sc.HTTP_408_REQUEST_TIMEOUT = 408
  /\ forall message,
       Envelope "Request timed out" sc.HTTP_408_REQUEST_TIMEOUT
       <> Envelope message sc.HTTP_404_NOT_FOUND.
Proof.
  assert (Hallowed : allowed "a" = true) by reflexivity.
  assert (Hexists : indices_exists (normalized "a") Double.timing_out
                    = (Returned true, Double.timing_out)) by reflexivity.
  destruct (search_timeout_is_408 (SearchKeyword "pen") "a" Double.timing_out
              Double.timing_out eq_refl Hallowed Hexists)
    as (kw & Hcalls & Htimeout & Hcode & Hdistinct).
  assert (Hkw : [ {| index := "tdp_a"; body := None; query := Some (QueryString "pen");
                     size := Some 100; request_timeout := Some 30 |} ] = [kw])
    by exact Hcalls.
  injection Hkw as <-.
  split; [| split; [exact Hcode | exact Hdistinct]].
  apply (Htimeout "Connection timed out" Double.timing_out). reflexivity.
Defined.

Lemma normalized_idempotent_witness :
  Py.startswith "tdp_orders" INDEX_NAME_PREFIX = true
  /\ normalized "tdp_orders" = "tdp_orders"
  /\ normalized (normalized "orders") = normalized "orders".
Proof.
  split; [reflexivity | split].
  - apply (proj1 normalized_idempotent "tdp_orders"). reflexivity.
  - apply (proj2 normalized_idempotent "orders").
Defined.

Lemma projection_keeps_one_entry_per_hit_witness :
  exists field_list : list pyval,
    (exists message,
       run_operation (SearchFieldByKeyValue "price" "name" "pen") "a" Double.one =
         ([Engine (IndicesExists (normalized "a"));
           Engine (Search {| index := "tdp_a"; body := None;
                             query := Some (Match "name" "pen");
                             size := Some 100; request_timeout := Some 30 |})],
          Returned (match Double.hits Double.one with
                    | [] => Envelope message 404
                    | _ :: _ => Fields field_list
                    end), Double.one))
    /\ length field_list = length (Double.hits Double.one)
    /\ (forall (i : nat) (arr : hit),
          Double.hits Double.one !! i = Some arr ->
          field_list !! i = Some (dict_get (_source arr) "price"))
    /\ (forall (i : nat) (arr : hit),
          Double.hits Double.one !! i = Some arr -> _source arr !! "price" = None ->
          field_list !! i = Some PNone).
Proof.
  assert (Hallowed : allowed "a" = true) by reflexivity.
  assert (Hexists : indices_exists (normalized "a") Double.one
                    = (Returned true, Double.one)) by reflexivity.
  destruct (projection_keeps_one_entry_per_hit (SearchFieldByKeyValue "price" "name" "pen")
              "price" "a" Double.one Double.one eq_refl Hallowed Hexists)
    as (kw & Hcalls & Hrun).
  assert (Hkw : [ {| index := "tdp_a"; body := None; query := Some (Match "name" "pen");
                     size := Some 100; request_timeout := Some 30 |} ] = [kw])
    by exact Hcalls.
  injection Hkw as <-.
  apply (Hrun (Double.hits Double.one) Double.one). reflexivity.
Defined.

Lemma search_passes_timeout_and_page_size_witness :
  is_search (SearchByTimeRange "day" "2020" "2021") = true
  /\ search_calls (trace_of (run_operation (SearchByTimeRange "day" "2020" "2021") "a"
                               Double.one))
     = [ {| index := "tdp_a"; body := None; query := Some (Range "day" "2020" "2021");
            size := Some RECORDS; request_timeout := Some REQUEST_TIMEOUT |} ]
  /\ Forall (fun kw => request_timeout kw = Some REQUEST_TIMEOUT
                       /\ size kw = Some RECORDS)
            (search_calls (trace_of (run_operation (SearchByTimeRange "day" "2020" "2021")
                                       "a" Double.one)))
  /\ exists kw,
       search_calls (trace_of (run_operation (SearchByTimeRange "day" "2020" "2021")
                                 "a" Double.one)) = [kw].
Proof.
  split; [reflexivity | split; [reflexivity |]].
  pose proof (search_passes_timeout_and_page_size
                (SearchByTimeRange "day" "2020" "2021") "a" Double.one eq_refl)
    as [Hpassed Hone].
  split; [exact Hpassed |].
  apply (Hone Double.one); reflexivity.
Defined.

(** C2 as stated fails on the search by id: its one query carries no
    [size]. *)
Lemma search_by_id_passes_no_size :
  ~ Forall (fun kw => size kw = Some RECORDS
                      /\ request_timeout kw = Some REQUEST_TIMEOUT)
           (search_calls (trace_of (search_record_from_index_by_given_id "a" "1"
                                      Double.one))).
Proof.
  intros Hall.
  assert (Hcalls :
    search_calls (trace_of (search_record_from_index_by_given_id "a" "1" Double.one))
    = [ {| index := "tdp_a"; body := Some (Match "_id" "1"); query := None;
           size := None; request_timeout := Some 30 |} ]) by reflexivity.
  rewrite Hcalls in Hall. apply Forall_inv in Hall. destruct Hall as [Hsize _].
  discriminate Hsize.
Qed.

Lemma timeout_handling_witness :
  allowed "a" = true
  /\ (exists text,
        run_operation (SearchById "1") "a" Double.timing_out =
          ([Engine (IndicesExists (normalized "a"));
            Engine (Search {| index := "tdp_a"; body := Some (Match "_id" "1");
                              query := None; size := None;
                              request_timeout := Some 30 |});
            Print text],
           Returned (Envelope "Request timed out" 408), Double.timing_out))
  /\ (exists text,
        run_operation Delete "a" Double.timing_out =
          ([Engine (IndicesExists (normalized "a"));
            Engine (IndicesDelete (normalized "a"));
            Print text],
           Returned (Envelope ("Failed to delete index: " +:+ normalized "a") 404),
           Double.timing_out))
  /\ (exists text,
        run_operation (InsertDoc "7" ∅) "a" Double.timing_out =
          ([Engine (IndicesExists (normalized "a"));
            Engine (Index (normalized "a") ∅ "7" true "30s");
            Print text],
           Returned (Envelope ("Failed to load record into index '"
                               +:+ normalized "a" +:+ "'") 404),
           Double.timing_out))
  /\ (exists text,
        run_operation (InsertCsv "rows.csv") "a" Double.timing_out =
          ([Engine (IndicesExists (normalized "a"));
            Open "rows.csv" "r" "utf-8";
            Engine (Bulk (csv_DictReader ("name,price" +:+ Py.LF +:+ "pen,3" +:+ Py.LF))
                         (normalized "a"));
            Print text;
            Close "rows.csv"],
           Returned (Envelope ("Failed to load records into index '"
                               +:+ normalized "a" +:+ "'") 404),
           Double.timing_out))
  /\ (exists text,
        run_operation Create "orders" Double.timing_out =
          ([Engine (CatIndices (INDEX_NAME_PREFIX +:+ "*") "index" "index:desc");
            Engine (IndicesExists (normalized "orders"));
            Engine (IndicesCreate (normalized "orders")
                      (PDict [("index", PDict [("number_of_shards", PStr "1");
                                               ("number_of_replicas", PInt 0)])]));
            Print text],
           Returned (Envelope ("Failed to create index: " +:+ normalized "orders") 404),
           Double.timing_out)).
Proof.
  assert (Hallowed : allowed "a" = true) by reflexivity.
  assert (Hallowed' : allowed "orders" = true) by reflexivity.
  assert (Hexists : indices_exists (normalized "a") Double.timing_out
                    = (Returned true, Double.timing_out)) by reflexivity.
  split; [exact Hallowed |].
  pose proof (timeout_handling "a" Hallowed) as (Hsearch & _ & Hdelete & Hinsert & Hbulk).
  pose proof (timeout_handling "orders" Hallowed') as (_ & Hcreate & _).
  split; [| split; [| split; [| split]]].
  - destruct (Hsearch (SearchById "1") Double.timing_out Double.timing_out
                eq_refl Hexists) as (kw & Hcalls & Htimeout).
    assert (Hkw : [ {| index := "tdp_a"; body := Some (Match "_id" "1"); query := None;
                       size := None; request_timeout := Some 30 |} ] = [kw])
      by exact Hcalls.
    injection Hkw as <-.
    apply (Htimeout "Connection timed out" Double.timing_out). reflexivity.
  - apply (Hdelete Double.timing_out Double.timing_out Double.timing_out
             (ConnectionTimeout "Connection timed out")); reflexivity.
  - apply (Hinsert "7" ∅ Double.timing_out Double.timing_out Double.timing_out
             (ConnectionTimeout "Connection timed out")); reflexivity.
  - apply (Hbulk "rows.csv" ("name,price" +:+ Py.LF +:+ "pen,3" +:+ Py.LF)
             Double.timing_out Double.timing_out Double.timing_out Double.timing_out
             (ConnectionTimeout "Connection timed out")); reflexivity.
  - apply (Hcreate (Double.listing Double.timing_out)
             Double.timing_out Double.timing_out Double.timing_out Double.timing_out
             (ConnectionTimeout "Connection timed out")).
    + reflexivity.
    + vm_compute. reflexivity.
    + reflexivity.
    + reflexivity.
Defined.

(** C3 as stated fails on delete: when the delete call times out, the
    function returns the generic failure envelope, status 404, the very
    envelope it returns when the call fails in any other way. *)
Lemma delete_timeout_is_generic_failure :
  indices_delete "tdp_a" Double.timing_out
    = (Raised (ConnectionTimeout "Connection timed out"), Double.timing_out)
  /\ outcome_of (delete_a_single_index "a" Double.timing_out)
     = Returned (Envelope "Failed to delete index: tdp_a" 404)
  /\ outcome_of (delete_a_single_index "a" Double.broken)
     = Returned (Envelope "Failed to delete index: tdp_a" 404)
  /\ status_of (Envelope "Failed to delete index: tdp_a" 404)
     <> Some sc.HTTP_408_REQUEST_TIMEOUT.
Proof.
  split; [reflexivity | split; [reflexivity | split; [reflexivity |]]].
  intros Heq. discriminate Heq.
Qed.

Lemma special_chars_rejected_witness :
  (exists char, In char SPECIAL_CHARS /\ Py.str_in char "ord!ers" = true)
  /\ (exists message,
        run_operation (InsertCsv "rows.csv") "ord!ers" Double.full
          = ([], Returned (Envelope message 405), Double.full))
  /\ (exists message,
        run_operation Create "ord!ers" Double.one =
          ([Engine (CatIndices (INDEX_NAME_PREFIX +:+ "*") "index" "index:desc")],
           Returned (Envelope message 405), Double.one)).
Proof.
  assert (Hspecial : exists char, In char SPECIAL_CHARS /\ Py.str_in char "ord!ers" = true).
  { exists "!". split; [left; reflexivity | reflexivity]. }
  split; [exact Hspecial | split].
  - apply (proj1 (special_chars_rejected (InsertCsv "rows.csv") "ord!ers" Double.full
                    Hspecial)).
    discriminate.
  - apply (proj2 (special_chars_rejected Create "ord!ers" Double.one Hspecial)
             (Double.listing Double.one) Double.one).
    + reflexivity.
    + vm_compute. reflexivity.
Defined.

(** C6 as stated fails on create: with the index count at the maximum, a
    name with a special character gets the capacity-failure envelope, status
    406, not the validation-failure envelope. *)
Lemma create_at_capacity_answers_406 :
  In "!" SPECIAL_CHARS
  /\ Py.str_in "!" "ord!ers" = true
  /\ create_a_single_index "ord!ers" Double.full =
       ([Engine (CatIndices "tdp_*" "index" "index:desc")],
        Returned (Envelope ("Maximum limit(=2) of indices has already been reached,"
                            +:+ " not allowed to create anymore indices unless you"
                            +:+ " delete some") 406),
        Double.full)
  /\ status_of (Envelope "" 406) <> Some sc.HTTP_405_METHOD_NOT_ALLOWED.
Proof.
  split; [left; reflexivity | split; [reflexivity | split; [reflexivity |]]].
  intros Heq. discriminate Heq.
Qed.

Lemma text_search_wraps_with_wildcards_witness :
  allowed "a" = true
  /\ indices_exists (normalized "a") Double.one = (Returned true, Double.one)
  /\ search_calls (trace_of (search_all_occurances_of_text_in_index "a" "pe" Double.one))
     = [ {| index := "tdp_a"; body := None; query := Some (QueryString "*pe*");
            size := Some RECORDS; request_timeout := Some REQUEST_TIMEOUT |} ]
  /\ exists kw,
       search_calls (trace_of (search_all_occurances_of_text_in_index "a" "pe" Double.one))
       = [kw].
Proof.
  split; [reflexivity | split; [reflexivity | split; [reflexivity |]]].
  destruct (text_search_wraps_with_wildcards "a" "pe" Double.one)
    as (_ & _ & _ & _ & Hone).
  apply (Hone Double.one); reflexivity.
Defined.

Lemma bulk_insert_ignores_creation_witness :
  create_a_single_index (normalized "orders") Double.full
    = ([Engine (CatIndices "tdp_*" "index" "index:desc")],
       Returned (Envelope ("Maximum limit(=2) of indices has already been reached,"
                           +:+ " not allowed to create anymore indices unless you"
                           +:+ " delete some") 406),
       Double.full)
  /\ exists message printed,
       insert_multiple_docs_from_csv "orders" "rows.csv" Double.full =
         ([Engine (IndicesExists (normalized "orders"))]
            ++ [Engine (CatIndices "tdp_*" "index" "index:desc")]
            ++ [Open "rows.csv" "r" "utf-8";
                Engine (Bulk (csv_DictReader ("name,price" +:+ Py.LF +:+ "pen,3" +:+ Py.LF))
                             (normalized "orders"))]
            ++ map Print printed ++ [Close "rows.csv"],
          Returned (Envelope message 200), Double.full).
Proof.
  split; [reflexivity |].
  apply (bulk_insert_ignores_creation "orders" "rows.csv"
           ("name,price" +:+ Py.LF +:+ "pen,3" +:+ Py.LF)
           Double.full Double.full Double.full Double.full Double.full
           [Engine (CatIndices "tdp_*" "index" "index:desc")]
           (Envelope ("Maximum limit(=2) of indices has already been reached,"
                      +:+ " not allowed to create anymore indices unless you"
                      +:+ " delete some") 406)
           (Returned tt));
    reflexivity.
Defined.

End OnTheDouble.

(** * Further properties *)

(** ** Strings *)

Lemma append_empty_r (s : string) : s +:+ "" = s.
Proof. induction s as [|c s IH]; [done | exact (f_equal (String c) IH)]. Qed.

Lemma append_assoc (a b c : string) : (a +:+ b) +:+ c = a +:+ (b +:+ c).
Proof. induction a as [|x a IH]; [done | exact (f_equal (String x) IH)]. Qed.

Lemma prefix_empty (s : string) : String.prefix "" s = true.
Proof. by destruct s. Qed.

Lemma prefix_char (c x : ascii) (s : string) :
  String.prefix (String c "") (String x s) = bool_decide (c = x).
Proof.
  simpl. destruct (ascii_dec c x) as [->|Hne].
  - by rewrite prefix_empty, bool_decide_eq_true_2.
  - by rewrite bool_decide_eq_false_2.
Qed.

(** A one-character string occurs in [s] exactly when the character is one
    of the characters of [s]. *)
Lemma str_in_char (c : ascii) (s : string) :
  Py.str_in (String c "") s = true <-> In c (list_ascii_of_string s).
Proof.
  induction s as [|x s IH].
  - simpl. split; [discriminate | tauto].
  - change (Py.str_in (String c "") (String x s))
      with (String.prefix (String c "") (String x s) || Py.str_in (String c "") s).
    rewrite prefix_char, orb_true_iff, bool_decide_eq_true, IH. simpl.
    split; intros [Heq | Hin]; auto.
Qed.

Lemma str_in_char_app (c : ascii) (a b : string) :
  Py.str_in (String c "") (a +:+ b)
  = Py.str_in (String c "") a || Py.str_in (String c "") b.
Proof.
  induction a as [|x a IH].
  - reflexivity.
  - change (String x a +:+ b) with (String x (a +:+ b)).
    change (Py.str_in (String c "") (String x (a +:+ b)))
      with (String.prefix (String c "") (String x (a +:+ b))
            || Py.str_in (String c "") (a +:+ b)).
    change (Py.str_in (String c "") (String x a))
      with (String.prefix (String c "") (String x a) || Py.str_in (String c "") a).
    rewrite !prefix_char, IH. by rewrite orb_assoc.
Qed.

Lemma single_character (item : string) :
  String.length item = 1%nat -> exists c, item = String c "".
Proof. destruct item as [|c [|]]; try discriminate. intros _. by exists c. Qed.

(** Reading a run of characters without white space extends the word being
    read. *)
Lemma split_from_word (cur s rest : string) :
  space_free s = true ->
  Py.split_from cur (s +:+ rest) = Py.split_from (cur +:+ s) rest.
Proof.
  revert cur. induction s as [|c s IH]; intros cur Hfree.
  - by rewrite append_empty_r.
  - unfold space_free in Hfree. simpl in Hfree.
    apply andb_true_iff in Hfree as [Hc Hs]. apply negb_true_iff in Hc.
    change (String c s +:+ rest) with (String c (s +:+ rest)).
    simpl. rewrite Hc, (IH _ Hs), append_assoc. reflexivity.
Qed.

(** Splitting a listing with one name per line gives the names back. *)
Lemma split_lines (names : list string) :
  Forall (fun name => name <> "" /\ space_free name = true) names ->
  Py.split (lines names) = names.
Proof.
  unfold Py.split. induction 1 as [|name names [Hne Hfree] _ IH]; [reflexivity |].
  change (lines (name :: names)) with (name +:+ Py.LF +:+ lines names).
  rewrite (split_from_word "" name _ Hfree).
  change (Py.split_from ("" +:+ name) (Py.LF +:+ lines names))
    with ((if decide (name = "") then [] else [name]) ++ Py.split_from "" (lines names)).
  destruct (decide (name = "")); [done |]. by rewrite IH.
Qed.

(** ** Validation and normalisation of names *)

Section Names.

Context `{Const}.

Lemma allowed_forallb (_index : string) :
  allowed _index = forallb (fun char => negb (Py.str_in char _index)) SPECIAL_CHARS.
Proof. unfold allowed. by rewrite allowed_loop. Qed.

Lemma forallb_str_in_app (items : list string) (a b : string) :
  Forall (fun item => String.length item = 1%nat) items ->
  forallb (fun char => negb (Py.str_in char (a +:+ b))) items
  = forallb (fun char => negb (Py.str_in char a)) items
    && forallb (fun char => negb (Py.str_in char b)) items.
Proof.
  induction 1 as [|item items Hitem _ IH]; [reflexivity |].
  destruct (single_character item Hitem) as [c ->].
  simpl. rewrite IH, str_in_char_app.
  destruct (Py.str_in (String c "") a), (Py.str_in (String c "") b); simpl;
    try reflexivity; by rewrite ?andb_false_r.
Qed.

Lemma allowed_app (a b : string) :
  Forall (fun item => String.length item = 1%nat) SPECIAL_CHARS ->
  allowed (a +:+ b) = allowed a && allowed b.
Proof. intros Hsingle. rewrite !allowed_forallb. by apply forallb_str_in_app. Qed.

Lemma normalized_twice (_index : string) :
  normalized (normalized _index) = normalized _index.
Proof.
  unfold normalized at 1. by rewrite normalized_startswith.
Qed.

(** When the items of [SPECIAL_CHARS] are single characters, a name passes
    the validation loop exactly when none of its characters is one of them,
    and a concatenation passes exactly when both parts pass. *)
Theorem allowed_by_characters :
  Forall (fun item => String.length item = 1%nat) SPECIAL_CHARS ->
  (forall _index : string,
     allowed _index = true <->
     forall c, In c (list_ascii_of_string _index) -> ~ In (String c "") SPECIAL_CHARS)
  /\ (forall a b : string, allowed (a +:+ b) = allowed a && allowed b).
Proof.
  intros Hsingle. split; [| intros a b; by apply allowed_app].
  intros _index. rewrite allowed_forallb, forallb_forall. split.
  - intros Hall c Hc Hitem. specialize (Hall _ Hitem).
    apply negb_true_iff in Hall. apply str_in_char in Hc. congruence.
  - intros Hnone item Hitem. apply negb_true_iff, not_true_iff_false. intros Hin.
    rewrite Forall_forall in Hsingle.
    destruct (single_character item) as [c ->].
    { apply Hsingle. by apply list_elem_of_In. }
    apply str_in_char in Hin. exact (Hnone c Hin Hitem).
Qed.

(** When the items of [SPECIAL_CHARS] are single characters and the prefix
    itself passes the validation, normalising a name does not change whether
    it passes: a valid name stays valid once prefixed. *)
Theorem normalized_stays_allowed (_index : string) :
  Forall (fun item => String.length item = 1%nat) SPECIAL_CHARS ->
  allowed INDEX_NAME_PREFIX = true ->
  allowed (normalized _index) = allowed _index.
Proof.
  intros Hsingle Hprefix. unfold normalized.
  destruct (Py.startswith _index INDEX_NAME_PREFIX); simpl; [reflexivity |].
  by rewrite allowed_app, Hprefix.
Qed.

End Names.

(** ** Counting the indices *)

Section Counting.

Context `{Const} `{World W}.

(** When the engine lists the indices one name per line (names that are not
    empty and hold no white space), [no_of_tdp_idx] returns the number of
    names, with the listing as its only call; an empty listing gives 0. *)
Theorem no_of_tdp_idx_counts_names (names : list string) (w w' : W) :
  Forall (fun name => name <> "" /\ space_free name = true) names ->
  cat_indices (INDEX_NAME_PREFIX +:+ "*") "index" "index:desc" w
    = (Returned (lines names), w') ->
  no_of_tdp_idx w =
    ([Engine (CatIndices (INDEX_NAME_PREFIX +:+ "*") "index" "index:desc")],
     Returned (Z.of_nat (length names)), w').
Proof.
  intros Hnames Hcat.
  unfold no_of_tdp_idx, es_cat_indices, bind, perform, ret. rewrite Hcat.
  unfold Py.len. by rewrite (split_lines names Hnames).
Qed.

End Counting.

(** ** What every run keeps to *)

(** Case analysis on every answer of the world that the goal depends on. *)
Ltac answer_cases :=
  repeat (simpl;
    match goal with
    | |- context [cat_indices ?a ?b ?c ?w] =>
        destruct (cat_indices a b c w) as [[?|?] ?]
    | |- context [indices_exists ?i ?w] =>
        destruct (indices_exists i w) as [[[|]|?] ?]
    | |- context [indices_create ?i ?s ?w] =>
        destruct (indices_create i s w) as [[[]|?] ?]
    | |- context [indices_delete ?i ?w] =>
        destruct (indices_delete i w) as [[[]|?] ?]
    | |- context [index_document ?i ?d ?k ?e ?t ?w] =>
        destruct (index_document i d k e t w) as [[[]|?] ?]
    | |- context [search ?kw ?w] =>
        destruct (search kw w) as [[[|? ?]|[?|?]] ?]
    | |- context [bulk ?a ?i ?w] =>
        destruct (bulk a i w) as [[[]|?] ?]
    | |- context [open_file ?f ?m ?e ?w] =>
        destruct (open_file f m e w) as [[?|?] ?]
    | |- context [Py.len ?l >=? ?m] => destruct (Py.len l >=? m)
    | |- context [allowed ?i] => destruct (allowed i)
    end); simpl.

Section Invariants.

Context `{Const} `{World W}.

(** Whatever the cluster answers, an envelope returned by a function carries
    one of the statuses of that function's [return] statements: 406, 405,
    200, 404 or 208 for create; 405, 200, 404 or 400 for delete and single
    insert; 405, 200 or 404 for bulk insert; 405, 408 or 404 for a search. *)
Theorem returned_status_is_listed (op : operation) (_index : string) (w : W)
    (message : string) (status : Z) :
  outcome_of (run_operation op _index w) = Returned (Envelope message status) ->
  In status (return_statuses op).
Proof.
  destruct op; do 2 unfold_service; unfold_monad; answer_cases;
    intros Heq; try discriminate Heq; injection Heq as _ <-;
    repeat first [left; reflexivity | right].
Qed.

(** Whatever the cluster answers, a search function only reads: the calls it
    makes are existence checks and searches (and it may print). *)
Theorem searches_only_read (op : operation) (_index : string) (w : W) :
  is_search op = true ->
  Forall (fun ev => match ev with
                    | Engine (IndicesExists _) | Engine (Search _) | Print _ => True
                    | _ => False
                    end)
         (trace_of (run_operation op _index w)).
Proof.
  intros Hop.
  destruct op; try discriminate Hop; unfold_service; unfold_monad; answer_cases;
    repeat constructor.
Qed.

(** Whatever the cluster answers, every call a function makes on an index
    is made on the normalised name (the listing of create takes a pattern and
    is the one call without an index). *)
Theorem calls_target_normalized_name (op : operation) (_index : string) (w : W) :
  Forall (fun ev => match ev with
                    | Engine c =>
                        match call_index c with
                        | Some i => i = normalized _index
                        | None => True
                        end
                    | _ => True
                    end)
         (trace_of (run_operation op _index w)).
Proof.
  destruct op; do 2 unfold_service; unfold_monad; rewrite ?normalized_twice;
    answer_cases; repeat constructor.
Qed.

(** An exception leaves a function only from the listing, from the existence
    check, from opening the file, or from a search that raises something
    other than a connection timeout: what the create, delete, index and bulk
    calls raise never escapes. *)
Theorem escaping_exceptions (op : operation) (_index : string) (w : W) (ex : exn) :
  outcome_of (run_operation op _index w) = Raised ex ->
  match last (trace_of (run_operation op _index w)) with
  | Some (Engine (CatIndices _ _ _)) => True
  | Some (Engine (IndicesExists _)) => True
  | Some (Open _ _ _) => True
  | Some (Engine (Search _)) => exists desc, ex = OtherException desc
  | _ => False
  end.
Proof.
  destruct op; do 2 unfold_service; unfold_monad; answer_cases;
    intros Heq; try discriminate Heq; try exact I;
    injection Heq as <-; eexists; reflexivity.
Qed.

End Invariants.

(** ** The paths of the functions *)

Section Paths.

Context `{Const} `{World W}.

(** With room left and a valid name whose index is absent, create issues the
    create call on the normalised name with one shard and no replica, and
    when that call succeeds it returns the success envelope, status 200,
    naming the normalised name. *)
Theorem create_creates_normalized_name (_index text : string) (w w0 w1 w2 : W) :
  cat_indices (INDEX_NAME_PREFIX +:+ "*") "index" "index:desc" w = (Returned text, w0) ->
  Py.len (Py.split text) < MAX_IDX_LIM ->
  allowed _index = true ->
  indices_exists (normalized _index) w0 = (Returned false, w1) ->
  indices_create (normalized _index)
    (PDict [("index", PDict [("number_of_shards", PStr "1");
                             ("number_of_replicas", PInt 0)])]) w1
    = (Returned tt, w2) ->
  create_a_single_index _index w =
    ([Engine (CatIndices (INDEX_NAME_PREFIX +:+ "*") "index" "index:desc");
      Engine (IndicesExists (normalized _index));
      Engine (IndicesCreate (normalized _index)
                (PDict [("index", PDict [("number_of_shards", PStr "1");
                                         ("number_of_replicas", PInt 0)])]))],
     Returned (Envelope ("Successfully created index: " +:+ normalized _index) 200),
     w2).
Proof.
  intros Hcat Hroom Hallowed Hexists Hcreate.
  unfold_service; unfold_monad. rewrite Hcat.
  assert (Hlt : (Py.len (Py.split text) >=? MAX_IDX_LIM) = false).
  { apply not_true_iff_false. rewrite Z.geb_le. lia. }
  rewrite Hlt, Hallowed. simpl. rewrite Hexists. simpl. rewrite Hcreate. reflexivity.
Qed.

(** With room left and a valid name whose index already exists, create
    returns the already-exists envelope, status 208, and issues no create
    call. *)
Theorem create_reports_existing_index (_index text : string) (w w0 w1 : W) :
  cat_indices (INDEX_NAME_PREFIX +:+ "*") "index" "index:desc" w = (Returned text, w0) ->
  Py.len (Py.split text) < MAX_IDX_LIM ->
  allowed _index = true ->
  indices_exists (normalized _index) w0 = (Returned true, w1) ->
  create_a_single_index _index w =
    ([Engine (CatIndices (INDEX_NAME_PREFIX +:+ "*") "index" "index:desc");
      Engine (IndicesExists (normalized _index))],
     Returned (Envelope ("Not created, index '" +:+ normalized _index
                         +:+ "' already exists") 208),
     w1).
Proof.
  intros Hcat Hroom Hallowed Hexists.
  unfold_service; unfold_monad. rewrite Hcat.
  assert (Hlt : (Py.len (Py.split text) >=? MAX_IDX_LIM) = false).
  { apply not_true_iff_false. rewrite Z.geb_le. lia. }
  rewrite Hlt, Hallowed. simpl. rewrite Hexists. reflexivity.
Qed.

(** In create, what the listing raises escapes at once, and what the
    existence check raises escapes too: neither call is inside the [try]. *)
Theorem create_prologue_failure_escapes (_index : string) (w : W) (ex : exn) :
  (forall w' : W,
     cat_indices (INDEX_NAME_PREFIX +:+ "*") "index" "index:desc" w = (Raised ex, w') ->
     create_a_single_index _index w =
       ([Engine (CatIndices (INDEX_NAME_PREFIX +:+ "*") "index" "index:desc")],
        Raised ex, w'))
  /\ (forall (text : string) (w0 w1 : W),
        cat_indices (INDEX_NAME_PREFIX +:+ "*") "index" "index:desc" w
          = (Returned text, w0) ->
        Py.len (Py.split text) < MAX_IDX_LIM ->
        allowed _index = true ->
        indices_exists (normalized _index) w0 = (Raised ex, w1) ->
        create_a_single_index _index w =
          ([Engine (CatIndices (INDEX_NAME_PREFIX +:+ "*") "index" "index:desc");
            Engine (IndicesExists (normalized _index))],
           Raised ex, w1)).
Proof.
  split.
  - intros w' Hcat. unfold_service; unfold_monad. by rewrite Hcat.
  - intros text w0 w1 Hcat Hroom Hallowed Hexists.
    unfold_service; unfold_monad. rewrite Hcat.
    assert (Hlt : (Py.len (Py.split text) >=? MAX_IDX_LIM) = false).
    { apply not_true_iff_false. rewrite Z.geb_le. lia. }
    rewrite Hlt, Hallowed. simpl. by rewrite Hexists.
Qed.

(** In every function but create, on a valid name, what the existence check
    raises (a connection timeout included, also in the searches) escapes,
    and nothing else is called. *)
Theorem existence_check_failure_escapes (op : operation) (_index : string)
    (w w1 : W) (ex : exn) :
  op <> Create ->
  allowed _index = true ->
  indices_exists (normalized _index) w = (Raised ex, w1) ->
  run_operation op _index w =
    ([Engine (IndicesExists (normalized _index))], Raised ex, w1).
Proof.
  intros Hop Hallowed Hexists.
  destruct op; try congruence;
    unfold_service; unfold_monad; rewrite Hallowed; simpl; by rewrite Hexists.
Qed.

(** On a valid name whose index exists, delete issues the delete call on
    the normalised name, and when that call succeeds it returns the success
    envelope, status 200. *)
Theorem delete_deletes_normalized_name (_index : string) (w w1 w2 : W) :
  allowed _index = true ->
  indices_exists (normalized _index) w = (Returned true, w1) ->
  indices_delete (normalized _index) w1 = (Returned tt, w2) ->
  delete_a_single_index _index w =
    ([Engine (IndicesExists (normalized _index));
      Engine (IndicesDelete (normalized _index))],
     Returned (Envelope ("Successfully deleted index: " +:+ normalized _index) 200),
     w2).
Proof.
  intros Hallowed Hexists Hdelete.
  unfold_service; unfold_monad. rewrite Hallowed. simpl. rewrite Hexists. simpl.
  by rewrite Hdelete.
Qed.

(** On a valid name whose index exists, single insert hands the document
    and its id to the index call on the normalised name, with
    [error_trace=True] and [timeout="30s"], and when that call succeeds it
    returns the success envelope, status 200. *)
Theorem insert_indexes_document (_index _doc_id : string) (_doc : doc) (w w1 w2 : W) :
  allowed _index = true ->
  indices_exists (normalized _index) w = (Returned true, w1) ->
  index_document (normalized _index) _doc _doc_id true "30s" w1 = (Returned tt, w2) ->
  insert_a_single_doc _index _doc_id _doc w =
    ([Engine (IndicesExists (normalized _index));
      Engine (Index (normalized _index) _doc _doc_id true "30s")],
     Returned (Envelope ("Record successfully loaded into index '"
                         +:+ normalized _index +:+ "'") 200),
     w2).
Proof.
  intros Hallowed Hexists Hindex.
  unfold_service; unfold_monad. rewrite Hallowed. simpl. rewrite Hexists. simpl.
  by rewrite Hindex.
Qed.

(** When the index already exists, bulk insert never lists or creates: it
    opens the file, issues the bulk call, closes the file, and returns 200
    when the bulk call succeeds and 404 when it raises. *)
Theorem bulk_insert_into_existing_index (_index _filename text : string)
    (w w1 w2 w3 : W) (ob : outcome unit) :
  allowed _index = true ->
  indices_exists (normalized _index) w = (Returned true, w1) ->
  open_file _filename "r" "utf-8" w1 = (Returned text, w2) ->
  bulk (csv_DictReader text) (normalized _index) w2 = (ob, w3) ->
  exists message printed,
    insert_multiple_docs_from_csv _index _filename w =
      ([Engine (IndicesExists (normalized _index));
        Open _filename "r" "utf-8";
        Engine (Bulk (csv_DictReader text) (normalized _index))]
         ++ map Print printed ++ [Close _filename],
       Returned (Envelope message (match ob with Returned _ => 200 | Raised _ => 404 end)),
       w3).
Proof.
  intros Hallowed Hexists Hopen Hbulk.
  unfold_service; unfold_monad. rewrite Hallowed. simpl. rewrite Hexists. simpl.
  rewrite Hopen. simpl. rewrite Hbulk.
  destruct ob as [[]|ex]; simpl.
  - eexists _, []. reflexivity.
  - eexists _, [_]. reflexivity.
Qed.

(** When the file cannot be opened, bulk insert lets the exception escape:
    no bulk call is issued and nothing is closed, although the index may
    just have been created ([tc] is what that attempt did). *)
Theorem bulk_insert_open_failure_escapes (_index _filename : string)
    (w w1 w2 w3 : W) (found : bool) (tc : list event) (created : retval) (ex : exn) :
  allowed _index = true ->
  indices_exists (normalized _index) w = (Returned found, w1) ->
  (if found then tc = [] /\ w2 = w1
   else create_a_single_index (normalized _index) w1 = (tc, Returned created, w2)) ->
  open_file _filename "r" "utf-8" w2 = (Raised ex, w3) ->
  insert_multiple_docs_from_csv _index _filename w =
    ([Engine (IndicesExists (normalized _index))] ++ tc ++ [Open _filename "r" "utf-8"],
     Raised ex, w3).
Proof.
  intros Hallowed Hexists Hcreate Hopen.
  unfold insert_multiple_docs_from_csv. rewrite Hallowed. simpl.
  erewrite bind_returned by (apply perform_eq, Hexists).
  destruct found; simpl.
  - destruct Hcreate as [-> ->].
    unfold with_open, open, bind, perform, ret. by rewrite Hopen.
  - erewrite (bind_returned (bind (create_a_single_index (normalized _index)) _)).
    2: { erewrite bind_returned by exact Hcreate. unfold ret. reflexivity. }
    unfold with_open, open, bind, perform. rewrite Hopen. simpl.
    by rewrite app_nil_r.
Qed.

(** A valid name and its normalised form are interchangeable: when both
    pass the validation, every function does on the one exactly what it
    does on the other. *)
Theorem normalized_name_is_interchangeable (op : operation) (_index : string) (w : W) :
  allowed _index = true ->
  allowed (normalized _index) = true ->
  run_operation op (normalized _index) w = run_operation op _index w.
Proof.
  intros Hallowed Hnormalized.
  destruct op; unfold_service;
    rewrite ?normalized_twice, ?Hnormalized, ?Hallowed; reflexivity.
Qed.

End Paths.

(** ** What the searches return *)

Section Searches.

Context `{Const} `{World W}.

(** The search by id returns the body of the first hit and ignores any
    further hit; without a hit it returns the not-found envelope naming the
    id, status 404. *)
Theorem search_by_id_returns_first_hit (_index _doc_id : string) (w w1 w2 : W)
    (res : list hit) :
  allowed _index = true ->
  indices_exists (normalized _index) w = (Returned true, w1) ->
  search {| index := normalized _index; body := Some (Match "_id" _doc_id);
            query := None; size := None;
            request_timeout := Some REQUEST_TIMEOUT |} w1 = (Returned res, w2) ->
  outcome_of (search_record_from_index_by_given_id _index _doc_id w) =
    Returned (match res with
              | [] => Envelope ("No record with id=" +:+ _doc_id +:+ " exists in index '"
                                +:+ normalized _index +:+ "'") 404
              | first :: _ => Source (_source first)
              end)
  /\ world_of (search_record_from_index_by_given_id _index _doc_id w) = w2.
Proof.
  intros Hallowed Hexists Hsearch.
  unfold_service; unfold_monad. rewrite Hallowed. simpl. rewrite Hexists. simpl.
  rewrite Hsearch. by destruct res.
Qed.

(** The searches by key and value, by time range, by keyword and by text,
    on a valid name whose index exists, issue one query, [kw]; when the
    engine answers it with the hits [res], the function returns the bodies
    of all of them, one per hit and in the engine's order; without a hit it
    returns a not-found envelope, status 404, instead of an empty list. *)
Theorem record_search_returns_every_body (op : operation) (_index : string) (w w1 : W) :
  returns_records op = true ->
  allowed _index = true ->
  indices_exists (normalized _index) w = (Returned true, w1) ->
  exists kw,
    search_calls (trace_of (run_operation op _index w)) = [kw]
    /\ (forall res w2,
          search kw w1 = (Returned res, w2) ->
          exists message,
            run_operation op _index w =
              ([Engine (IndicesExists (normalized _index)); Engine (Search kw)],
               Returned (match res with
                         | [] => Envelope message 404
                         | _ :: _ => Records (map _source res)
                         end), w2)).
Proof.
  intros Hop Hallowed Hexists.
  destruct op; try discriminate Hop;
    unfold_service; unfold_monad; rewrite Hallowed; simpl; rewrite Hexists; simpl;
    match goal with
    | |- context [search ?kw w1] => exists kw; split
    end;
    try (intros res w2 Hsearch; rewrite Hsearch; simpl; rewrite collect_map;
         eexists; destruct res; reflexivity);
    match goal with
    | |- context [search ?kw w1] =>
        destruct (search kw w1) as [[res|[desc|desc]] w2]; simpl
    end;
    try destruct res; reflexivity.
Qed.

(** The search functions have no broad handler: a search that finds its
    index issues one query, [kw], and when the engine answers it with an
    exception other than a connection timeout, that exception escapes the
    function, and nothing is printed. *)
Theorem search_lets_other_exceptions_escape (op : operation) (_index : string)
    (w w1 : W) :
  is_search op = true ->
  allowed _index = true ->
  indices_exists (normalized _index) w = (Returned true, w1) ->
  exists kw,
    search_calls (trace_of (run_operation op _index w)) = [kw]
    /\ (forall desc w2,
          search kw w1 = (Raised (OtherException desc), w2) ->
          run_operation op _index w =
            ([Engine (IndicesExists (normalized _index)); Engine (Search kw)],
             Raised (OtherException desc), w2)).
Proof.
  intros Hop Hallowed Hexists.
  destruct op; try discriminate Hop;
    unfold_service; unfold_monad; rewrite Hallowed; simpl; rewrite Hexists; simpl;
    match goal with
    | |- context [search ?kw w1] => exists kw; split
    end;
    try (intros desc w2 Hsearch; rewrite Hsearch; reflexivity);
    match goal with
    | |- context [search ?kw w1] =>
        destruct (search kw w1) as [[res|[desc|desc]] w2]; simpl
    end;
    try destruct res; reflexivity.
Qed.

(** A field-projection search is the search for records with the same
    query followed by the lookup of the field in each body: on every
    cluster the two have the same calls and the same effect, and the outcome
    of the projection is the outcome of the search for records with each
    body replaced by its value at the field ([None] when absent).  This
    holds by key and value and by time range. *)
Theorem field_search_projects_record_search (_index _field : string) (w : W) :
  (forall _key _val : string,
     let fields :=
       search_field_from_index_by_given_key_and_value _index _field _key _val w in
     let records := search_records_from_index_by_given_key_and_value _index _key _val w in
     outcome_of fields = project _field (outcome_of records)
     /\ world_of fields = world_of records
     /\ without_prints (trace_of fields) = without_prints (trace_of records))
  /\ (forall _date_field _start _end : string,
        let fields :=
          search_field_from_index_by_time_range _index _date_field _field _start _end w in
        let records :=
          search_records_from_index_by_time_range _index _date_field _start _end w in
        outcome_of fields = project _field (outcome_of records)
        /\ world_of fields = world_of records
        /\ without_prints (trace_of fields) = without_prints (trace_of records)).
Proof.
  split; intros; subst fields records; unfold_service; unfold_monad; simpl;
    (destruct (allowed _index); simpl; [| by repeat split]);
    (destruct (indices_exists (normalized _index) w) as [[[|]|ex] w1]; simpl;
     [| by repeat split | by repeat split]);
    match goal with
    | |- context [search ?kw w1] => destruct (search kw w1) as [[res|[desc|desc]] w2]
    end; simpl; try (by repeat split);
    rewrite !collect_map; destruct res; simpl; repeat split;
    by rewrite map_map.
Qed.

End Searches.

(** ** The further properties on the test doubles *)

Section FurtherOnTheDouble.

#[local] Existing Instance Double.const.
#[local] Existing Instance Double.world.

Lemma allowed_by_characters_witness :
  Forall (fun item => String.length item = 1%nat) SPECIAL_CHARS
  /\ allowed "tdp_orders" = true
  /\ allowed ("tdp_" +:+ "or ders") = allowed "tdp_" && allowed "or ders".
Proof.
  assert (Hsingle : Forall (fun item => String.length item = 1%nat) SPECIAL_CHARS).
  { repeat constructor. }
  split; [exact Hsingle | split].
  - apply (proj1 (allowed_by_characters Hsingle) "tdp_orders").
    intros c Hc Hitem. simpl in Hc, Hitem.
    repeat (destruct Hitem as [Hitem | Hitem];
            [injection Hitem as <-;
             repeat (destruct Hc as [Hc | Hc]; [discriminate Hc |]); exact Hc |]).
    exact Hitem.
  - apply (proj2 (allowed_by_characters Hsingle) "tdp_" "or ders").
Defined.

Lemma normalized_stays_allowed_witness :
  Forall (fun item => String.length item = 1%nat) SPECIAL_CHARS
  /\ allowed INDEX_NAME_PREFIX = true
  /\ allowed (normalized "ord!ers") = allowed "ord!ers".
Proof.
  assert (Hsingle : Forall (fun item => String.length item = 1%nat) SPECIAL_CHARS).
  { repeat constructor. }
  split; [exact Hsingle | split; [reflexivity |]].
  apply (normalized_stays_allowed "ord!ers" Hsingle). reflexivity.
Defined.

Lemma no_of_tdp_idx_counts_names_witness :
  cat_indices (INDEX_NAME_PREFIX +:+ "*") "index" "index:desc" Double.full
    = (Returned (lines ["tdp_b"; "tdp_a"]), Double.full)
  /\ no_of_tdp_idx Double.full =
       ([Engine (CatIndices (INDEX_NAME_PREFIX +:+ "*") "index" "index:desc")],
        Returned (Z.of_nat (length ["tdp_b"; "tdp_a"])), Double.full).
Proof.
  split; [reflexivity |].
  apply (no_of_tdp_idx_counts_names ["tdp_b"; "tdp_a"] Double.full Double.full).
  - repeat constructor; discriminate.
  - reflexivity.
Defined.

Lemma returned_status_is_listed_witness :
  outcome_of (run_operation Delete "orders" Double.one)
    = Returned (Envelope "Index 'tdp_orders' does not exist, nothing to delete" 400)
  /\ In 400 (return_statuses Delete).
Proof.
  split; [reflexivity |].
  apply (returned_status_is_listed Delete "orders" Double.one
           "Index 'tdp_orders' does not exist, nothing to delete" 400).
  reflexivity.
Defined.

Lemma searches_only_read_witness :
  Forall (fun ev => match ev with
                    | Engine (IndicesExists _) | Engine (Search _) | Print _ => True
                    | _ => False
                    end)
         (trace_of (run_operation (SearchText "pe") "a" Double.timing_out)).
Proof.
  apply (searches_only_read (SearchText "pe") "a" Double.timing_out). reflexivity.
Defined.

Lemma escaping_exceptions_witness :
  outcome_of (run_operation (SearchKeyword "pen") "a" Double.broken)
    = Raised (OtherException "Connection refused")
  /\ match last (trace_of (run_operation (SearchKeyword "pen") "a" Double.broken)) with
     | Some (Engine (CatIndices _ _ _)) => True
     | Some (Engine (IndicesExists _)) => True
     | Some (Open _ _ _) => True
     | Some (Engine (Search _)) =>
         exists desc, OtherException "Connection refused" = OtherException desc
     | _ => False
     end.
Proof.
  split; [reflexivity |].
  apply (escaping_exceptions (SearchKeyword "pen") "a" Double.broken
           (OtherException "Connection refused")).
  reflexivity.
Defined.

Lemma create_creates_normalized_name_witness :
  outcome_of (create_a_single_index "orders" Double.one)
    = Returned (Envelope ("Successfully created index: " +:+ normalized "orders") 200)
  /\ Double.names (world_of (create_a_single_index "orders" Double.one))
     = ["tdp_orders"; "tdp_a"].
Proof.
  rewrite (create_creates_normalized_name "orders" (Double.listing Double.one)
             Double.one Double.one Double.one
             {| Double.names := ["tdp_orders"; "tdp_a"];
                Double.failing := None;
                Double.hits := Double.hits Double.one;
                Double.files := Double.files Double.one |}).
  - split; reflexivity.
  - reflexivity.
  - vm_compute. reflexivity.
  - reflexivity.
  - reflexivity.
  - reflexivity.
Defined.

Lemma create_reports_existing_index_witness :
  create_a_single_index "a" Double.one =
    ([Engine (CatIndices (INDEX_NAME_PREFIX +:+ "*") "index" "index:desc");
      Engine (IndicesExists (normalized "a"))],
     Returned (Envelope ("Not created, index '" +:+ normalized "a"
                         +:+ "' already exists") 208),
     Double.one).
Proof.
  apply (create_reports_existing_index "a" (Double.listing Double.one)
           Double.one Double.one Double.one).
  - reflexivity.
  - vm_compute. reflexivity.
  - reflexivity.
  - reflexivity.
Defined.

Lemma delete_deletes_normalized_name_witness :
  outcome_of (delete_a_single_index "a" Double.one)
    = Returned (Envelope ("Successfully deleted index: " +:+ normalized "a") 200)
  /\ Double.names (world_of (delete_a_single_index "a" Double.one)) = [].
Proof.
  rewrite (delete_deletes_normalized_name "a" Double.one Double.one
             {| Double.names := [];
                Double.failing := None;
                Double.hits := Double.hits Double.one;
                Double.files := Double.files Double.one |}).
  - split; reflexivity.
  - reflexivity.
  - reflexivity.
  - reflexivity.
Defined.

Lemma insert_indexes_document_witness :
  insert_a_single_doc "a" "7" {[ "name" := PStr "ink" ]} Double.one =
    ([Engine (IndicesExists (normalized "a"));
      Engine (Index (normalized "a") {[ "name" := PStr "ink" ]} "7" true "30s")],
     Returned (Envelope ("Record successfully loaded into index '"
                         +:+ normalized "a" +:+ "'") 200),
     Double.one).
Proof.
  apply (insert_indexes_document "a" "7" {[ "name" := PStr "ink" ]}
           Double.one Double.one Double.one); reflexivity.
Defined.

Lemma bulk_insert_into_existing_index_witness :
  exists message printed,
    insert_multiple_docs_from_csv "a" "rows.csv" Double.timing_out =
      ([Engine (IndicesExists (normalized "a"));
        Open "rows.csv" "r" "utf-8";
        Engine (Bulk (csv_DictReader ("name,price" +:+ Py.LF +:+ "pen,3" +:+ Py.LF))
                     (normalized "a"))]
         ++ map Print printed ++ [Close "rows.csv"],
       Returned (Envelope message 404), Double.timing_out).
Proof.
  apply (bulk_insert_into_existing_index "a" "rows.csv"
           ("name,price" +:+ Py.LF +:+ "pen,3" +:+ Py.LF)
           Double.timing_out Double.timing_out Double.timing_out Double.timing_out
           (Raised (ConnectionTimeout "Connection timed out")));
    reflexivity.
Defined.

Lemma bulk_insert_open_failure_escapes_witness :
  insert_multiple_docs_from_csv "orders" "missing.csv" Double.one =
    ([Engine (IndicesExists (normalized "orders"))]
       ++ [Engine (CatIndices "tdp_*" "index" "index:desc");
           Engine (IndicesExists "tdp_orders");
           Engine (IndicesCreate "tdp_orders"
                     (PDict [("index", PDict [("number_of_shards", PStr "1");
                                              ("number_of_replicas", PInt 0)])]))]
       ++ [Open "missing.csv" "r" "utf-8"],
     Raised (OtherException "No such file or directory"),
     {| Double.names := ["tdp_orders"; "tdp_a"];
        Double.failing := None;
        Double.hits := Double.hits Double.one;
        Double.files := Double.files Double.one |}).
Proof.
  apply (bulk_insert_open_failure_escapes "orders" "missing.csv"
           Double.one Double.one
           {| Double.names := ["tdp_orders"; "tdp_a"];
              Double.failing := None;
              Double.hits := Double.hits Double.one;
              Double.files := Double.files Double.one |}
           {| Double.names := ["tdp_orders"; "tdp_a"];
              Double.failing := None;
              Double.hits := Double.hits Double.one;
              Double.files := Double.files Double.one |}
           false
           [Engine (CatIndices "tdp_*" "index" "index:desc");
            Engine (IndicesExists "tdp_orders");
            Engine (IndicesCreate "tdp_orders"
                      (PDict [("index", PDict [("number_of_shards", PStr "1");
                                               ("number_of_replicas", PInt 0)])]))]
           (Envelope "Successfully created index: tdp_orders" 200)
           (OtherException "No such file or directory"));
    reflexivity.
Defined.

Lemma normalized_name_is_interchangeable_witness :
  allowed "orders" = true
  /\ allowed (normalized "orders") = true
  /\ run_operation (InsertCsv "rows.csv") (normalized "orders") Double.one
     = run_operation (InsertCsv "rows.csv") "orders" Double.one.
Proof.
  split; [reflexivity | split; [reflexivity |]].
  apply (normalized_name_is_interchangeable (InsertCsv "rows.csv") "orders" Double.one);
    reflexivity.
Defined.

Lemma search_by_id_returns_first_hit_witness :
  outcome_of (search_record_from_index_by_given_id "a" "1" Double.one)
    = Returned (Source {[ "name" := PStr "pen" ]})
  /\ world_of (search_record_from_index_by_given_id "a" "1" Double.one) = Double.one.
Proof.
  apply (search_by_id_returns_first_hit "a" "1" Double.one Double.one Double.one
           (Double.hits Double.one)); reflexivity.
Defined.

Lemma record_search_returns_every_body_witness :
  exists message,
    run_operation (SearchByKeyValue "name" "pen") "a" Double.one =
      ([Engine (IndicesExists (normalized "a"));
        Engine (Search {| index := "tdp_a"; body := None;
                          query := Some (Match "name" "pen");
                          size := Some 100; request_timeout := Some 30 |})],
       Returned (match Double.hits Double.one with
                 | [] => Envelope message 404
                 | _ :: _ => Records (map _source (Double.hits Double.one))
                 end), Double.one).
Proof.
  assert (Hallowed : allowed "a" = true) by reflexivity.
  assert (Hexists : indices_exists (normalized "a") Double.one
                    = (Returned true, Double.one)) by reflexivity.
  destruct (record_search_returns_every_body (SearchByKeyValue "name" "pen") "a"
              Double.one Double.one eq_refl Hallowed Hexists)
    as (kw & Hcalls & Hrun).
  assert (Hkw : [ {| index := "tdp_a"; body := None; query := Some (Match "name" "pen");
                     size := Some 100; request_timeout := Some 30 |} ] = [kw])
    by exact Hcalls.
  injection Hkw as <-.
  apply (Hrun (Double.hits Double.one) Double.one). reflexivity.
Defined.

Lemma search_lets_other_exceptions_escape_witness :
  run_operation (SearchByTimeRange "day" "2020" "2021") "a" Double.broken =
    ([Engine (IndicesExists (normalized "a"));
      Engine (Search {| index := "tdp_a"; body := None;
                        query := Some (Range "day" "2020" "2021");
                        size := Some 100; request_timeout := Some 30 |})],
     Raised (OtherException "Connection refused"), Double.broken).
Proof.
  assert (Hallowed : allowed "a" = true) by reflexivity.
  assert (Hexists : indices_exists (normalized "a") Double.broken
                    = (Returned true, Double.broken)) by reflexivity.
  destruct (search_lets_other_exceptions_escape (SearchByTimeRange "day" "2020" "2021")
              "a" Double.broken Double.broken eq_refl Hallowed Hexists)
    as (kw & Hcalls & Hrun).
  assert (Hkw : [ {| index := "tdp_a"; body := None;
                     query := Some (Range "day" "2020" "2021");
                     size := Some 100; request_timeout := Some 30 |} ] = [kw])
    by exact Hcalls.
  injection Hkw as <-.
  apply (Hrun "Connection refused" Double.broken). reflexivity.
Defined.

End FurtherOnTheDouble.

Section OnTheOutage.

#[local] Existing Instance Double.const.
#[local] Existing Instance Outage.world.

Lemma create_prologue_failure_escapes_witness :
  create_a_single_index "orders" 0%nat =
    ([Engine (CatIndices (INDEX_NAME_PREFIX +:+ "*") "index" "index:desc")],
     Raised (ConnectionTimeout "Connection timed out"), 0%nat)
  /\ create_a_single_index "orders" 1%nat =
       ([Engine (CatIndices (INDEX_NAME_PREFIX +:+ "*") "index" "index:desc");
         Engine (IndicesExists (normalized "orders"))],
        Raised (ConnectionTimeout "Connection timed out"), 0%nat).
Proof.
  split.
  - apply (proj1 (create_prologue_failure_escapes "orders" 0%nat
                    (ConnectionTimeout "Connection timed out")) 0%nat).
    reflexivity.
  - apply (proj2 (create_prologue_failure_escapes "orders" 1%nat
                    (ConnectionTimeout "Connection timed out")) "" 0%nat 0%nat).
    + reflexivity.
    + vm_compute. reflexivity.
    + reflexivity.
    + reflexivity.
Defined.

Lemma existence_check_failure_escapes_witness :
  run_operation (SearchById "1") "orders" 0%nat =
    ([Engine (IndicesExists (normalized "orders"))],
     Raised (ConnectionTimeout "Connection timed out"), 0%nat).
Proof.
  apply (existence_check_failure_escapes (SearchById "1") "orders" 0%nat 0%nat
           (ConnectionTimeout "Connection timed out")).
  - discriminate.
  - reflexivity.
  - reflexivity.
Defined.

End OnTheOutage.
